(** * computeSales.py: a shallow embedding and its verified properties

    The program joins a product price catalogue with a list of sale
    records, both decoded from JSON, and reports the total.  The
    embedding follows the Python source function by function:

    - decoded JSON documents are values of [json]; a Python [float] is an
      IEEE 754 binary64 number, taken from the standard library's
      executable specification [SpecFloat] (precision 53, [emax] 1024);
      a Python [int] is a [Z];
    - an exception is a value of [exn]; a statement that can raise
      returns an [outcome]; what is printed is a list of [event]s, kept
      even when the call ends by raising;
    - a [dict] is an insertion-ordered association list over the hashable
      values ([key]);
    - [open] followed by [json.load] is one reading of the file system,
      passed in as a function from file names to outcomes;
    - a [str] is a [string], one character of the model for one
      character of the text;
    - standard output and the report file are the environment's:
      whether standard output can encode a text, and how opening and
      writing the report file ends, are parameters of the development;
    - the two conversions from text, [int(str)] and [float(str)], are the
      interpreter's; they are parameters of the development, so every
      theorem holds whatever they answer. *)

From Stdlib Require Import ZArith List String Ascii Bool Lia.
From Stdlib Require Import SpecFloat DecimalString DecimalN.
Import ListNotations.

Local Open Scope string_scope.
Local Open Scope Z_scope.
Local Set Warnings "-register-all".

(** ** Python floats: IEEE 754 binary64 *)

Definition float : Type := spec_float.

Definition prec : Z := 53.
Definition emax : Z := 1024.

Definition fadd : float -> float -> float := SFadd prec emax.
Definition fsub : float -> float -> float := SFsub prec emax.
Definition fmul : float -> float -> float := SFmul prec emax.

(** The literal [0.0]. *)
Definition fzero : float := S754_zero false.

(** A binary64 value in canonical form (every Python float is one). *)
Definition is_binary64 (x : float) : bool := valid_binary prec emax x.

Definition is_finite (x : float) : bool :=
  match x with
  | S754_zero _ | S754_finite _ _ _ => true
  | S754_infinity _ | S754_nan => false
  end.

(** ** Decoded JSON documents *)

Inductive json : Type :=
| JNull                                  (* None *)
| JBool (b : bool)                       (* True, False *)
| JInt (z : Z)                           (* int, unbounded *)
| JFloat (f : float)                     (* float, with NaN and the infinities *)
| JStr (s : string)                      (* str *)
| JArr (items : list json)               (* list *)
| JObj (fields : list (string * json)).  (* dict with str keys, in order *)

(** ** Exceptions

    One constructor per place an exception can come from; [class_of]
    gives the class the [except] clauses test. *)

Inductive exn_class : Type :=
| KeyError | ValueError | TypeError | OverflowError
| FileNotFoundError | JSONDecodeError | UnicodeDecodeError
| UnicodeEncodeError | PermissionError | SystemExit.

Inductive exn : Type :=
| KeyError_missing (k : json)            (* d[k], k absent *)
| TypeError_subscript (v : json)         (* v[k], v not a dict *)
| TypeError_iter (v : json)              (* for _ in v, v not iterable *)
| TypeError_unhashable (v : json)        (* v used as a dict key *)
| TypeError_convert (v : json)           (* int(v), float(v): no number in v *)
| ValueError_literal (s : string)        (* int(s), float(s): s is no numeral *)
| ValueError_nan                         (* int(nan) *)
| ValueError_raised (msg : string)       (* raise ValueError(msg) *)
| OverflowError_infinity                 (* int(inf), int(-inf) *)
| OverflowError_int_too_large            (* an int beyond the float range *)
| UnicodeEncodeError_print (v : json)    (* print(f"...{v}"), stdout cannot encode v *)
| IOError (c : exn_class)                (* raised by open, json.load or write *)
| SystemExit_code (status : Z).          (* sys.exit(status) *)

Definition class_of (e : exn) : exn_class :=
  match e with
  | KeyError_missing _ => KeyError
  | TypeError_subscript _ | TypeError_iter _
  | TypeError_unhashable _ | TypeError_convert _ => TypeError
  | ValueError_literal _ | ValueError_nan | ValueError_raised _ => ValueError
  | OverflowError_infinity | OverflowError_int_too_large => OverflowError
  | UnicodeEncodeError_print _ => UnicodeEncodeError
  | IOError c => c
  | SystemExit_code _ => SystemExit
  end.

Definition exn_class_eqb (a b : exn_class) : bool :=
  match a, b with
  | KeyError, KeyError | ValueError, ValueError | TypeError, TypeError
  | OverflowError, OverflowError | FileNotFoundError, FileNotFoundError
  | JSONDecodeError, JSONDecodeError | UnicodeDecodeError, UnicodeDecodeError
  | UnicodeEncodeError, UnicodeEncodeError
  | PermissionError, PermissionError | SystemExit, SystemExit => true
  | _, _ => false
  end.

(** [issubclass c h]: [json.JSONDecodeError], [UnicodeDecodeError] and
    [UnicodeEncodeError] derive from [ValueError]; the other classes
    here are unrelated. *)
Definition issubclass (c h : exn_class) : bool :=
  exn_class_eqb c h ||
  match c, h with
  | JSONDecodeError, ValueError | UnicodeDecodeError, ValueError
  | UnicodeEncodeError, ValueError => true
  | _, _ => false
  end.

(** [except (h1, h2, ...)] catches [e]. *)
Definition caught (handlers : list exn_class) (e : exn) : bool :=
  existsb (issubclass (class_of e)) handlers.

Inductive outcome (A : Type) : Type :=
| Return (a : A)
| Raise (e : exn).
Arguments Return {A} a.
Arguments Raise {A} e.

Definition bind {A B : Type} (x : outcome A) (k : A -> outcome B) : outcome B :=
  match x with
  | Return a => k a
  | Raise e => Raise e
  end.

Notation "x <- c1 ;; c2" := (bind c1 (fun x => c2))
  (at level 61, c1 at next level, right associativity).

(** ** What the program prints *)

Inductive event : Type :=
| InvalidProductEntry (e : exn)    (* print(f"Invalid product entry skipped: {error}") *)
| FileNotFoundMsg (filename : string) (* print(f"Error: File '{filename}' not found.") *)
| InvalidJSONMsg (filename : string)  (* print(f"Error: Invalid JSON format in '{filename}'.") *)
| ProductNotFound (product : json) (* print(f"Product not found in catalogue: {product}") *)
| InvalidSaleRecord (e : exn)      (* print(f"Invalid sale record skipped: {error}") *)
| PrintText (s : string).          (* print(s), s a literal or a formatted number *)

(** A call: what it printed, and how it ended. *)
Definition run (A : Type) : Type := (list event * outcome A)%type.

(** ** Built-in operations on decoded values *)

(** [v[k]] for a literal string [k]. *)
Fixpoint lookup_field (k : string) (fields : list (string * json)) : option json :=
  match fields with
  | [] => None
  | (k', v) :: rest => if String.eqb k k' then Some v else lookup_field k rest
  end.

Definition getitem (v : json) (k : string) : outcome json :=
  match v with
  | JObj fields =>
      match lookup_field k fields with
      | Some x => Return x
      | None => Raise (KeyError_missing (JStr k))
      end
  | _ => Raise (TypeError_subscript v)
  end.

(** [for x in v]: the elements of a list, the keys of a dict, the
    characters of a string; anything else is not iterable. *)
Definition py_iter (v : json) : outcome (list json) :=
  match v with
  | JArr items => Return items
  | JObj fields => Return (map (fun kv => JStr (fst kv)) fields)
  | JStr s => Return (map (fun c => JStr (String c EmptyString)) (list_ascii_of_string s))
  | _ => Raise (TypeError_iter v)
  end.

(** [int(x)] for a float [x]: truncation toward zero. *)
Definition int_of_float (f : float) : outcome Z :=
  match f with
  | S754_nan => Raise ValueError_nan
  | S754_infinity _ => Raise OverflowError_infinity
  | S754_zero _ => Return 0
  | S754_finite s m e => Return (cond_Zopp s (Z.shiftl (Zpos m) e))
  end.

(** An int as a float: rounded to nearest, ties to even; an int that
    rounds beyond the largest float raises [OverflowError]. *)
Definition float_of_Z (z : Z) : outcome float :=
  match binary_normalize prec emax z 0 false with
  | S754_infinity _ => Raise OverflowError_int_too_large
  | f => Return f
  end.

(** The integer value of a float, when it has one. *)
Definition float_integral (f : float) : option Z :=
  match f with
  | S754_zero _ => Some 0
  | S754_finite s m e =>
      if 0 <=? e then Some (cond_Zopp s (Z.shiftl (Zpos m) e))
      else if Zpos m mod 2 ^ (- e) =? 0 then Some (cond_Zopp s (Z.shiftl (Zpos m) e))
      else None
  | _ => None
  end.

(** ** Dictionaries

    Python compares keys with [==] (and by identity): [True], [1] and
    [1.0] are one key, and so are [0], [0.0] and [-0.0].  A key is the
    hashable value up to that equality. *)

Inductive key : Type :=
| KNone
| KStr (s : string)
| KInt (z : Z)          (* bool, int, and every float with an integer value *)
| KFloat (f : float).   (* the other floats *)

Definition hash_key (v : json) : outcome key :=
  match v with
  | JNull => Return KNone
  | JBool b => Return (KInt (if b then 1 else 0))
  | JInt z => Return (KInt z)
  | JFloat f =>
      match float_integral f with
      | Some z => Return (KInt z)
      | None => Return (KFloat f)
      end
  | JStr s => Return (KStr s)
  | JArr _ | JObj _ => Raise (TypeError_unhashable v)
  end.

Definition float_eqb (x y : float) : bool :=
  match x, y with
  | S754_zero a, S754_zero b => Bool.eqb a b
  | S754_infinity a, S754_infinity b => Bool.eqb a b
  | S754_nan, S754_nan => true
  | S754_finite a m e, S754_finite b n f => Bool.eqb a b && Pos.eqb m n && Z.eqb e f
  | _, _ => false
  end.

Definition key_eqb (a b : key) : bool :=
  match a, b with
  | KNone, KNone => true
  | KStr s, KStr t => String.eqb s t
  | KInt x, KInt y => Z.eqb x y
  | KFloat x, KFloat y => float_eqb x y
  | _, _ => false
  end.

Definition dict (V : Type) : Type := list (key * V).

Fixpoint dict_get {V : Type} (k : key) (d : dict V) : option V :=
  match d with
  | [] => None
  | (k', v) :: rest => if key_eqb k k' then Some v else dict_get k rest
  end.

(** [d[k] = v]: replaces the value in place, or appends a new entry. *)
Fixpoint dict_set {V : Type} (k : key) (v : V) (d : dict V) : dict V :=
  match d with
  | [] => [(k, v)]
  | (k', v') :: rest =>
      if key_eqb k k' then (k', v) :: rest else (k', v') :: dict_set k v rest
  end.

Definition dict_keys {V : Type} (d : dict V) : list key := map fst d.

(** [x in d], [d[x]] and [d[x] = v] for a decoded value [x]. *)
Definition dict_contains {V : Type} (d : dict V) (x : json) : outcome bool :=
  k <- hash_key x ;;
  Return (match dict_get k d with Some _ => true | None => false end).

Definition dict_getitem {V : Type} (d : dict V) (x : json) : outcome V :=
  k <- hash_key x ;;
  match dict_get k d with
  | Some v => Return v
  | None => Raise (KeyError_missing x)
  end.

Definition dict_setitem {V : Type} (d : dict V) (x : json) (v : V) : outcome (dict V) :=
  k <- hash_key x ;;
  Return (dict_set k v d).

(** ** Formatting a float with [:.nf]

    The exact binary value is rounded to [n] decimals, ties to even; the
    sign of the float is kept, also on zero; NaN and the infinities are
    spelled out. *)

Definition round_half_even (num den : Z) : Z :=
  let q := num / den in
  match (2 * (num mod den)) ?= den with
  | Lt => q
  | Gt => q + 1
  | Eq => if Z.even q then q else q + 1
  end.

(** [m * 2^e * 10^n], rounded to an integer. *)
Definition scaled (n : nat) (m : positive) (e : Z) : Z :=
  if 0 <=? e then Zpos m * 2 ^ e * 10 ^ Z.of_nat n
  else round_half_even (Zpos m * 10 ^ Z.of_nat n) (2 ^ (- e)).

Definition digit_char (d : Z) : ascii := ascii_of_nat (48 + Z.to_nat d).

(** The last [n] decimal digits of [v], zero-padded. *)
Fixpoint fraction_digits (n : nat) (v : Z) : string :=
  match n with
  | O => EmptyString
  | S k => fraction_digits k (v / 10) ++ String (digit_char (v mod 10)) EmptyString
  end.

Definition integer_digits (v : Z) : string :=
  NilZero.string_of_uint (N.to_uint (Z.to_N v)).

Definition fixed_point (n : nat) (v : Z) : string :=
  match n with
  | O => integer_digits v
  | S _ => integer_digits (v / 10 ^ Z.of_nat n) ++ "." ++ fraction_digits n (v mod 10 ^ Z.of_nat n)
  end.

Definition sign_text (s : bool) : string := if s then "-" else "".

Definition format_f (n : nat) (x : float) : string :=
  match x with
  | S754_nan => "nan"
  | S754_infinity s => sign_text s ++ "inf"
  | S754_zero s => sign_text s ++ fixed_point n 0
  | S754_finite s m e => sign_text s ++ fixed_point n (scaled n m e)
  end.

Definition newline : string := String "010"%char EmptyString.

(** The text [print(s)] appends to standard output. *)
Definition printed_text (s : string) : string := s ++ newline.

(** ** Checking the shape of a formatted number *)

Definition is_digit (c : ascii) : bool :=
  ((48 <=? nat_of_ascii c)%nat && (nat_of_ascii c <=? 57)%nat)%bool.

Fixpoint all_digits (s : string) : bool :=
  match s with
  | EmptyString => true
  | String c r => is_digit c && all_digits r
  end.

(** The text before the first ".", and the text after it. *)
Fixpoint split_at_dot (s : string) : option (string * string) :=
  match s with
  | EmptyString => None
  | String c r =>
      if Ascii.eqb c "."%char then Some (EmptyString, r)
      else
        match split_at_dot r with
        | Some (a, b) => Some (String c a, b)
        | None => None
        end
  end.

Definition strip_minus (s : string) : string :=
  match s with
  | String c r => if Ascii.eqb c "-"%char then r else s
  | EmptyString => s
  end.

(** [s] is an optional minus sign, one or more digits, a point, and
    exactly [n] digits. *)
Definition has_fraction_digits (n : nat) (s : string) : bool :=
  match split_at_dot (strip_minus s) with
  | Some (a, b) =>
      negb (String.eqb a EmptyString) && all_digits a && all_digits b
      && Nat.eqb (String.length b) n
  | None => false
  end.

(** ** Data for the examples

    The examples hold no numeral written as text other than a plain
    decimal integer, which both conversions read the way Python does. *)

Fixpoint decimal_value (acc : Z) (s : string) : option Z :=
  match s with
  | EmptyString => Some acc
  | String c r =>
      if is_digit c then decimal_value (10 * acc + (Z.of_nat (nat_of_ascii c) - 48)) r
      else None
  end.

Definition example_int (s : string) : option Z :=
  match s with
  | EmptyString => None
  | String c r =>
      if Ascii.eqb c "-"%char then
        match r with
        | EmptyString => None
        | _ => option_map Z.opp (decimal_value 0 r)
        end
      else decimal_value 0 s
  end.

Definition example_float (s : string) : option float :=
  option_map (fun z => binary_normalize prec emax z 0 false) (example_int s).

(** The float [2.5]. *)
Definition two_and_a_half : float := S754_finite false 5629499534213120 (-51).

Definition sale (product quantity : json) : json :=
  JObj [("Product", product); ("Quantity", quantity)].

Definition product (title price : json) : json :=
  JObj [("title", title); ("price", price)].

Definition widgets : list (key * float) := [(KStr "Widget", two_and_a_half)].

(** A directory: a catalogue, a sales file, a file that is not JSON, two
    files holding the documents [5] and [null], two more catalogues with
    a repeated title; no other file exists. *)
Definition example_files (filename : string) : outcome json :=
  if String.eqb filename "catalogue.json" then
    Return (JArr [product (JStr "Widget") (JFloat two_and_a_half)])
  else if String.eqb filename "sales.json" then
    Return (JArr [sale (JStr "Widget") (JInt 3)])
  else if String.eqb filename "broken.json" then Raise (IOError JSONDecodeError)
  else if String.eqb filename "five.json" then Return (JInt 5)
  else if String.eqb filename "null.json" then Return JNull
  else if String.eqb filename "pair.json" then
    Return (JArr [product (JStr "A") (JInt 1); product (JStr "A") (JInt 2)])
  else if String.eqb filename "huge.json" then
    Return (JArr [product (JStr "A") (JInt 1); product (JStr "A") (JInt 2);
                  product (JStr "B") (JInt (10 ^ 400))])
  else Raise (IOError FileNotFoundError).

(** The same directory with three more files: one that cannot be opened,
    one whose bytes are not UTF-8, and one that holds a single record
    in place of an array. *)
Definition other_files (filename : string) : outcome json :=
  if String.eqb filename "locked.json" then Raise (IOError PermissionError)
  else if String.eqb filename "latin1.json" then Raise (IOError UnicodeDecodeError)
  else if String.eqb filename "record.json" then Return (sale (JStr "Widget") (JInt 3))
  else example_files filename.

(** The catalogue of widgets with one more product. *)
Definition widgets_and_gadgets : list (key * float) :=
  [(KStr "Widget", two_and_a_half); (KStr "Gadget", two_and_a_half)].

(** The float [1e308], and a catalogue with that price. *)
Definition ten_to_the_308 : float := S754_finite false 5010420900022432 971.

Definition dear_widgets : list (key * float) := [(KStr "Widget", ten_to_the_308)].

(** A standard output that encodes every text of the examples (UTF-8),
    and one that encodes ASCII only (PYTHONIOENCODING=ascii); the text
    "Caf\xe9", which the second cannot encode. *)
Definition utf8 (text : string) : bool := true.
Definition ascii_only (text : string) : bool :=
  forallb (fun c => (nat_of_ascii c <? 128)%nat) (list_ascii_of_string text).

Definition cafe : string := "Caf" ++ String "233"%char EmptyString.

(** A directory where the report can be written, and a read-only
    one. *)
Definition writable (filename text : string) : outcome unit := Return tt.

(** Stand-ins for the texts of the interpreter, which no example
    inspects. *)
Definition example_message (e : exn) : string := "(message of the interpreter)".
Definition example_repr (v : json) : string := "(repr of the value)".


(** The float [7.5], the amount of three widgets. *)
Definition seven_and_a_half : float := S754_finite false 8444249301319680 (-50).

(** The float [3.875], a quantity with a fractional part. *)
Definition three_and_seven_eighths : float := S754_finite false 8725724278030336 (-51).

(** ** The program *)

Definition catalogue : Type := dict float.

Section ComputeSales.

(** [int(s)] and [float(s)] for a string [s]: [None] is [ValueError]. *)
Variable str_to_int : string -> option Z.
Variable str_to_float : string -> option float.

(** Standard output: whether its encoder accepts the text of a [str]
    of the input.  [print] raises [UnicodeEncodeError] when it does not
    (a text with a lone surrogate, which JSON can hold, on a UTF-8
    terminal; any text that is not ASCII on an ASCII one).  The other
    texts the program prints are its literals, formatted numbers, the
    messages of exceptions and the file names of the command line; the
    model takes standard output to accept them. *)
Variable encodable : string -> bool.

(** [f"{value}"] is ASCII for every decoded value that is not a [str]. *)
Definition printable (v : json) : bool :=
  match v with
  | JStr s => encodable s
  | _ => true
  end.

(** [int(v)] *)
Definition py_int (v : json) : outcome Z :=
  match v with
  | JInt z => Return z
  | JBool b => Return (if b then 1 else 0)
  | JFloat f => int_of_float f
  | JStr s =>
      match str_to_int s with
      | Some z => Return z
      | None => Raise (ValueError_literal s)
      end
  | JNull | JArr _ | JObj _ => Raise (TypeError_convert v)
  end.

(** [float(v)] *)
Definition py_float (v : json) : outcome float :=
  match v with
  | JFloat f => Return f
  | JInt z => float_of_Z z
  | JBool b => float_of_Z (if b then 1 else 0)
  | JStr s =>
      match str_to_float s with
      | Some f => Return f
      | None => Raise (ValueError_literal s)
      end
  | JNull | JArr _ | JObj _ => Raise (TypeError_convert v)
  end.

(** The files as the program finds them: [open(filename)] followed by
    [json.load(file)] either raises or gives the decoded document. *)
Variable read_json : string -> outcome json.

(** [open(filename, "w")] followed by the writes of the text and the
    closing of the file: either all of it returns, or one of the calls
    raises. *)
Variable write_file : string -> string -> outcome unit.

(** *** load_product_catalogue *)

(** Lines 27-29, the body of the inner [try]. *)
Definition product_entry (cat : catalogue) (item : json) : outcome catalogue :=
  title <- getitem item "title" ;;
  raw <- getitem item "price" ;;
  price <- py_float raw ;;
  dict_setitem cat title price.

(** Lines 25-31, the loop with its [except] clause: what it printed,
    the dictionary as the loop left it, and the exception that ended
    the loop, if one did. *)
Fixpoint catalogue_loop (cat : catalogue) (data : list json)
  : list event * (catalogue * option exn) :=
  match data with
  | [] => ([], (cat, None))
  | item :: rest =>
      match product_entry cat item with
      | Return cat' => catalogue_loop cat' rest
      | Raise e =>
          if caught [KeyError; ValueError; TypeError] e then
            let (out, r) := catalogue_loop cat rest in
            (InvalidProductEntry e :: out, r)
          else ([], (cat, Some e))
      end
  end.

(** Lines 33-38: the handlers of the outer [try], then [return]. *)
Definition catalogue_handlers (filename : string) (out : list event)
    (cat : catalogue) (e : exn) : run catalogue :=
  if caught [FileNotFoundError] e then
    ((out ++ [FileNotFoundMsg filename])%list, Return cat)
  else if caught [JSONDecodeError] e then
    ((out ++ [InvalidJSONMsg filename])%list, Return cat)
  else (out, Raise e).

Definition load_product_catalogue (filename : string) : run catalogue :=
  match read_json filename with
  | Raise e => catalogue_handlers filename [] [] e
  | Return data =>
      match py_iter data with
      | Raise e => catalogue_handlers filename [] [] e
      | Return items =>
          let '(out, (cat, r)) := catalogue_loop [] items in
          match r with
          | None => (out, Return cat)
          | Some e => catalogue_handlers filename out cat e
          end
      end
  end.

(** *** load_sales *)

Definition load_sales (filename : string) : run json :=
  match read_json filename with
  | Return data => ([], Return data)
  | Raise e =>
      if caught [FileNotFoundError] e then
        ([FileNotFoundMsg filename], Return (JArr []))
      else if caught [JSONDecodeError] e then
        ([InvalidJSONMsg filename], Return (JArr []))
      else ([], Raise e)
  end.

(** *** compute_total_sales *)

Definition quantity_message : string := "Quantity must be greater than zero.".

(** Line 74, [print(f"Product not found in catalogue: {product}")]: it
    stands inside the [try], and raises when standard output cannot
    encode the text of the product. *)
Definition print_not_found (product : json) : outcome (list event) :=
  if printable product then Return [ProductNotFound product]
  else Raise (UnicodeEncodeError_print product).

(** Lines 67-77, the body of the [try]: the events printed and the new
    total when the body completes or reaches [continue]. *)
Definition sale_entry (cat : catalogue) (total : float) (sale : json)
  : outcome (list event * float) :=
  product <- getitem sale "Product" ;;
  raw <- getitem sale "Quantity" ;;
  quantity <- py_int raw ;;
  if quantity <=? 0 then Raise (ValueError_raised quantity_message)
  else
    found <- dict_contains cat product ;;
    if negb found then
      out <- print_not_found product ;;
      Return (out, total)
    else
      price <- dict_getitem cat product ;;
      q <- float_of_Z quantity ;;
      Return ([], fadd total (fmul price q)).

(** Lines 65-80, the loop with its [except] clause. *)
Fixpoint sales_loop (cat : catalogue) (total : float) (sales : list json)
  : run float :=
  match sales with
  | [] => ([], Return total)
  | sale :: rest =>
      match sale_entry cat total sale with
      | Return (out, total') =>
          let (out', r) := sales_loop cat total' rest in
          ((out ++ out')%list, r)
      | Raise e =>
          if caught [KeyError; ValueError; TypeError] e then
            let (out', r) := sales_loop cat total rest in
            (InvalidSaleRecord e :: out', r)
          else ([], Raise e)
      end
  end.

Definition compute_total_sales (cat : catalogue) (sales : json) : run float :=
  match py_iter sales with
  | Raise e => ([], Raise e)
  | Return records => sales_loop cat fzero records
  end.

(** *** save_results and main *)

Definition results_file : string := "SalesResults.txt".

Definition title_line : string := "Sales Results".
Definition separator_line : string := "----------------------------".
Definition total_line (total : float) : string :=
  "Total sales amount: $" ++ format_f 2 total.
Definition time_line (elapsed_time : float) : string :=
  "Execution time: " ++ format_f 6 elapsed_time ++ " seconds".

(** The file opened with mode "w" and the text of the four [write]
    calls, in order.  How the opening and the writing end is the
    environment's, [write_file]. *)
Definition save_results (total elapsed_time : float) : string * string :=
  (results_file,
   (title_line ++ newline) ++
   (separator_line ++ newline) ++
   (total_line total ++ newline) ++
   (time_line elapsed_time ++ newline)).

Definition usage : string :=
  "Usage: python computeSales.py priceCatalogue.json salesRecord.json".

(** A run of [main]: what it printed; the file and the text of the call
    of [save_results], when the run reached it; how the run ended. *)
Record execution : Type := {
  stdout : list event;
  written : option (string * string);
  ended : outcome unit
}.

(** [argv] is [sys.argv]; [start_time] and [end_time] are the two
    readings of [time.time()].  The four lines are printed before
    [save_results] is called (lines 119-124); an exception of
    [save_results] is not handled and ends the run. *)
Definition main (argv : list string) (start_time end_time : float) : execution :=
  match argv with
  | [_; catalogue_file; sales_file] =>
      let (out1, r1) := load_product_catalogue catalogue_file in
      match r1 with
      | Raise e => {| stdout := out1; written := None; ended := Raise e |}
      | Return cat =>
          let (out2, r2) := load_sales sales_file in
          match r2 with
          | Raise e =>
              {| stdout := (out1 ++ out2)%list; written := None; ended := Raise e |}
          | Return sales =>
              let (out3, r3) := compute_total_sales cat sales in
              match r3 with
              | Raise e =>
                  {| stdout := (out1 ++ out2 ++ out3)%list;
                     written := None; ended := Raise e |}
              | Return total =>
                  let elapsed_time := fsub end_time start_time in
                  let report := save_results total elapsed_time in
                  {| stdout :=
                       (out1 ++ out2 ++ out3 ++
                        [PrintText (newline ++ title_line);
                         PrintText separator_line;
                         PrintText (total_line total);
                         PrintText (time_line elapsed_time)])%list;
                     written := Some report;
                     ended := write_file (fst report) (snd report) |}
              end
          end
      end
  | _ =>
      {| stdout := [PrintText usage]; written := None;
         ended := Raise (SystemExit_code 1) |}
  end.

(** *** The printed lines

    [str(error)] for an exception the interpreter raised, and
    [str(value)] for a float, a list or a dict, are the interpreter's. *)
Variable builtin_message : exn -> string.
Variable builtin_repr : json -> string.

(** [f"{error}"] *)
Definition exn_text (e : exn) : string :=
  match e with
  | ValueError_raised msg => msg
  | _ => builtin_message e
  end.

(** [f"{value}"] *)
Definition value_text (v : json) : string :=
  match v with
  | JStr s => s
  | JNull => "None"
  | JBool true => "True"
  | JBool false => "False"
  | _ => builtin_repr v
  end.

Definition render (ev : event) : string :=
  match ev with
  | InvalidProductEntry e => "Invalid product entry skipped: " ++ exn_text e
  | FileNotFoundMsg filename => "Error: File '" ++ filename ++ "' not found."
  | InvalidJSONMsg filename => "Error: Invalid JSON format in '" ++ filename ++ "'."
  | ProductNotFound product => "Product not found in catalogue: " ++ value_text product
  | InvalidSaleRecord e => "Invalid sale record skipped: " ++ exn_text e
  | PrintText s => s
  end.

(** *** Definitions the statements use *)

Definition iterable (v : json) : bool :=
  match v with
  | JArr _ | JObj _ | JStr _ => true
  | _ => false
  end.







(** A valid product entry, in the words of the specification: it has a
    title that can be a key and a price that converts to a float. *)
Definition valid_entry (item : json) : option (key * float) :=
  match item with
  | JObj fields =>
      match lookup_field "title" fields, lookup_field "price" fields with
      | Some title, Some raw =>
          match py_float raw, hash_key title with
          | Return price, Return k => Some (k, price)
          | _, _ => None
          end
      | _, _ => None
      end
  | _ => None
  end.







(** The exception with which an entry leaves the loop of the catalogue,
    if it does: the entry has a title, and its price is an integer
    beyond the range of the floats. *)
Definition price_overflow_of (item : json) : option exn :=
  match item with
  | JObj fields =>
      match lookup_field "title" fields, lookup_field "price" fields with
      | Some _, Some (JInt z) =>
          match float_of_Z z with
          | Raise _ => Some OverflowError_int_too_large
          | Return _ => None
          end
      | _, _ => None
      end
  | _ => None
  end.

Fixpoint until_price_overflow (data : list json) : list json * option exn :=
  match data with
  | [] => ([], None)
  | item :: rest =>
      match price_overflow_of item with
      | Some e => ([], Some e)
      | None =>
          let (before, r) := until_price_overflow rest in
          (item :: before, r)
      end
  end.

(** What one entry makes the loop of the catalogue print. *)
Definition entry_events (item : json) : list event :=
  match product_entry [] item with
  | Return _ => []
  | Raise e => [InvalidProductEntry e]
  end.

(** The catalogue after one entry: a valid entry assigns its price to
    its title, any other entry changes nothing. *)
Definition assign_entry (cat : catalogue) (item : json) : catalogue :=
  match valid_entry item with
  | Some (k, price) => dict_set k price cat
  | None => cat
  end.

(** Reading a formatted number back: whether it starts with a minus
    sign, and the integer its digits spell with the point left out
    ("-12.34" is [(true, 1234)]). *)
Definition has_minus (s : string) : bool :=
  match s with
  | String c _ => Ascii.eqb c "-"%char
  | EmptyString => false
  end.

Definition read_fixed (s : string) : option (bool * Z) :=
  match split_at_dot (strip_minus s) with
  | Some (a, b) => option_map (fun v => (has_minus s, v)) (decimal_value 0 (a ++ b))
  | None => None
  end.

(** The number a decimal numeral of the standard library spells,
    digit by digit from [acc]. *)
Fixpoint uint_value (acc : Z) (d : Decimal.uint) : Z :=
  match d with
  | Decimal.Nil => acc
  | Decimal.D0 l => uint_value (10 * acc) l
  | Decimal.D1 l => uint_value (10 * acc + 1) l
  | Decimal.D2 l => uint_value (10 * acc + 2) l
  | Decimal.D3 l => uint_value (10 * acc + 3) l
  | Decimal.D4 l => uint_value (10 * acc + 4) l
  | Decimal.D5 l => uint_value (10 * acc + 5) l
  | Decimal.D6 l => uint_value (10 * acc + 6) l
  | Decimal.D7 l => uint_value (10 * acc + 7) l
  | Decimal.D8 l => uint_value (10 * acc + 8) l
  | Decimal.D9 l => uint_value (10 * acc + 9) l
  end.

(** The sign of a float, and its magnitude as a fraction. *)
Definition sign_bit (x : float) : bool :=
  match x with
  | S754_zero s | S754_infinity s | S754_finite s _ _ => s
  | S754_nan => false
  end.

Definition numerator (x : float) : Z :=
  match x with
  | S754_finite _ m e => if 0 <=? e then Zpos m * 2 ^ e else Zpos m
  | _ => 0
  end.

Definition denominator (x : float) : Z :=
  match x with
  | S754_finite _ m e => if 0 <=? e then 1 else 2 ^ (- e)
  | _ => 1
  end.

(** [v] is an integer nearest to [num / den]. *)
Definition nearest (v num den : Z) : Prop := 2 * Z.abs (v * den - num) <= den.


(** The text between the line feeds of [s], as [s.split("\n")] gives
    it. *)
Fixpoint split_lines (s : string) : list string :=
  match s with
  | EmptyString => [EmptyString]
  | String c r =>
      if Ascii.eqb c "010"%char then EmptyString :: split_lines r
      else
        match split_lines r with
        | [] => [String c EmptyString]
        | line :: more => String c line :: more
        end
  end.

Fixpoint no_line_feed (s : string) : bool :=
  match s with
  | EmptyString => true
  | String c r => negb (Ascii.eqb c "010"%char) && no_line_feed r
  end.

(** ** Properties *)

(** *** How one record is processed *)


Lemma sales_loop_raise (cat : catalogue) (total : float) (sale : json)
    (rest : list json) (e : exn) :
  sale_entry cat total sale = Raise e ->
  caught [KeyError; ValueError; TypeError] e = true ->
  sales_loop cat total (sale :: rest) =
    (InvalidSaleRecord e :: fst (sales_loop cat total rest),
     snd (sales_loop cat total rest)).
Proof.
  intros He Hc. cbn [sales_loop]. rewrite He, Hc.
  destruct (sales_loop cat total rest); reflexivity.
Qed.

Lemma sales_loop_return (cat : catalogue) (total total' : float) (sale : json)
    (rest : list json) (out : list event) :
  sale_entry cat total sale = Return (out, total') ->
  sales_loop cat total (sale :: rest) =
    ((out ++ fst (sales_loop cat total' rest))%list,
     snd (sales_loop cat total' rest)).
Proof.
  intros He. cbn [sales_loop]. rewrite He.
  destruct (sales_loop cat total' rest); reflexivity.
Qed.










(** *** The records before and after a record *)

Lemma sales_loop_concat (cat : catalogue) (first second : list json) (total : float) :
  sales_loop cat total (first ++ second) =
    match sales_loop cat total first with
    | (out, Return reached) =>
        ((out ++ fst (sales_loop cat reached second))%list,
         snd (sales_loop cat reached second))
    | (out, Raise e) => (out, Raise e)
    end.
Proof.
  revert total. induction first as [|sale rest IH]; intros total.
  - cbn [app sales_loop]. destruct (sales_loop cat total second). reflexivity.
  - cbn [app sales_loop].
    destruct (sale_entry cat total sale) as [[out t]|e].
    + rewrite IH. destruct (sales_loop cat t rest) as [out1 [reached|e]].
      * rewrite app_assoc. reflexivity.
      * reflexivity.
    + destruct (caught [KeyError; ValueError; TypeError] e); [|reflexivity].
      rewrite IH. destruct (sales_loop cat total rest) as [out1 [reached|e']];
        reflexivity.
Qed.

(** When the records before have been processed, the call goes on with
    the rest from the total they reached. *)
Lemma compute_total_sales_after (cat : catalogue) (before rest : list json)
    (out : list event) (reached : float) :
  compute_total_sales cat (JArr before) = (out, Return reached) ->
  compute_total_sales cat (JArr (before ++ rest)) =
    ((out ++ fst (sales_loop cat reached rest))%list,
     snd (sales_loop cat reached rest)).
Proof.
  unfold compute_total_sales. cbn [py_iter]. intros H.
  rewrite sales_loop_concat, H. reflexivity.
Qed.

(** A record that prints [printed] and leaves the total as it is: the
    call on the array with the record is the call on the array without
    it, with [printed] at the place of the record. *)
Lemma compute_total_sales_skip (cat : catalogue) (before after : list json)
    (sale : json) (out printed : list event) (reached : float) :
  compute_total_sales cat (JArr before) = (out, Return reached) ->
  (forall rest,
      sales_loop cat reached (sale :: rest) =
        ((printed ++ fst (sales_loop cat reached rest))%list,
         snd (sales_loop cat reached rest))) ->
  compute_total_sales cat (JArr (before ++ [sale])) =
    ((out ++ printed)%list, Return reached) /\
  exists out' r,
    compute_total_sales cat (JArr (before ++ after)) = ((out ++ out')%list, r) /\
    compute_total_sales cat (JArr (before ++ sale :: after)) =
      ((out ++ printed ++ out')%list, r).
Proof.
  intros Hb Hstep. split.
  - rewrite (compute_total_sales_after _ _ [sale] _ _ Hb), Hstep.
    cbn [sales_loop fst snd]. rewrite app_nil_r. reflexivity.
  - exists (fst (sales_loop cat reached after)), (snd (sales_loop cat reached after)).
    split.
    + exact (compute_total_sales_after _ _ after _ _ Hb).
    + rewrite (compute_total_sales_after _ _ (sale :: after) _ _ Hb), Hstep.
      reflexivity.
Qed.

(** *** The claims *)



(** C6 (as amended): for every sale record whose Product and Quantity
    extract successfully with quantity > 0 and whose Product is a
    hashable value that is not a key of the catalogue, reached after
    the records before it were processed: when standard output can
    encode the text of the Product, [compute_total_sales] prints the
    "not found" diagnostic, whose wording differs from the
    malformed-record diagnostic, skips the record without raising, and
    leaves the running total unchanged: the call ends as it does on the
    array without the record, with the diagnostic at the place of the
    record.  When standard output cannot encode the text, the [print]
    raises [UnicodeEncodeError] inside the [try], and the record is
    reported as an invalid sale record instead. *)
Theorem unknown_product_skipped (cat : catalogue) (before after : list json)
    (out : list event) (reached : float)
    (fields : list (string * json)) (p raw : json) (q : Z) (k : key) :
  compute_total_sales cat (JArr before) = (out, Return reached) ->
  lookup_field "Product" fields = Some p ->
  lookup_field "Quantity" fields = Some raw ->
  py_int raw = Return q ->
  0 < q ->
  hash_key p = Return k ->
  dict_get k cat = None ->
  (printable p = true ->
   compute_total_sales cat (JArr (before ++ [JObj fields])) =
     ((out ++ [ProductNotFound p])%list, Return reached) /\
   exists out' r,
     compute_total_sales cat (JArr (before ++ after)) = ((out ++ out')%list, r) /\
     compute_total_sales cat (JArr (before ++ JObj fields :: after)) =
       ((out ++ ProductNotFound p :: out')%list, r)) /\
  (printable p = false ->
   compute_total_sales cat (JArr (before ++ [JObj fields])) =
     ((out ++ [InvalidSaleRecord (UnicodeEncodeError_print p)])%list,
      Return reached)) /\
  render (ProductNotFound p) = "Product not found in catalogue: " ++ value_text p /\
  forall e, render (ProductNotFound p) <> render (InvalidSaleRecord e).
Proof.
  intros Hb Hp Hraw Hq Hpos Hk Hget.
  assert (forall total,
             sale_entry cat total (JObj fields) =
               (printed <- print_not_found p ;; Return (printed, total))) as He.
  { intros total. unfold sale_entry, getitem. rewrite Hp, Hraw. cbn [bind].
    rewrite Hq. cbn [bind].
    destruct (q <=? 0) eqn:Hle; [apply Z.leb_le in Hle; lia|].
    unfold dict_contains. rewrite Hk. cbn [bind]. rewrite Hget. reflexivity. }
  split; [|split; [|split]].
  - intros Hprint.
    apply (compute_total_sales_skip cat before after (JObj fields) out
             [ProductNotFound p] reached Hb).
    intros rest. apply sales_loop_return. rewrite He.
    unfold print_not_found. rewrite Hprint. reflexivity.
  - intros Hprint.
    apply (compute_total_sales_skip cat before [] (JObj fields) out
             [InvalidSaleRecord (UnicodeEncodeError_print p)] reached Hb).
    intros rest. apply sales_loop_raise; [|reflexivity]. rewrite He.
    unfold print_not_found. rewrite Hprint. reflexivity.
  - reflexivity.
  - intros e. simpl. discriminate.
Qed.

(** C7: for every sale record whose Quantity converts to an integer
    that is zero or negative, reached after the records before it were
    processed, [compute_total_sales] prints the diagnostic naming the
    reason (the quantity message when the record has a Product, the
    missing key otherwise), skips the record and goes on with the next
    one: the total after the record is the total before it, and the
    call ends as it does on the array without the record, with the
    diagnostic at the place of the record. *)
Theorem nonpositive_quantity_skipped (cat : catalogue) (before after : list json)
    (out : list event) (reached : float)
    (fields : list (string * json)) (raw : json) (q : Z) :
  compute_total_sales cat (JArr before) = (out, Return reached) ->
  lookup_field "Quantity" fields = Some raw ->
  py_int raw = Return q ->
  q <= 0 ->
  exists e,
    e = match lookup_field "Product" fields with
        | Some _ => ValueError_raised "Quantity must be greater than zero."
        | None => KeyError_missing (JStr "Product")
        end /\
    (lookup_field "Product" fields <> None ->
     render (InvalidSaleRecord e) =
       "Invalid sale record skipped: Quantity must be greater than zero.") /\
    compute_total_sales cat (JArr (before ++ [JObj fields])) =
      ((out ++ [InvalidSaleRecord e])%list, Return reached) /\
    exists out' r,
      compute_total_sales cat (JArr (before ++ after)) = ((out ++ out')%list, r) /\
      compute_total_sales cat (JArr (before ++ JObj fields :: after)) =
        ((out ++ InvalidSaleRecord e :: out')%list, r).
Proof.
  intros Hb Hraw Hq Hle.
  destruct (lookup_field "Product" fields) as [p|] eqn:Hp.
  - exists (ValueError_raised "Quantity must be greater than zero.").
    assert (forall total, sale_entry cat total (JObj fields) =
            Raise (ValueError_raised "Quantity must be greater than zero.")) as He.
    { intros total. unfold sale_entry, getitem. rewrite Hp, Hraw. cbn [bind].
      rewrite Hq. cbn [bind]. apply Z.leb_le in Hle. rewrite Hle. reflexivity. }
    split; [reflexivity|]. split; [reflexivity|].
    apply (compute_total_sales_skip cat before after (JObj fields) out
             [InvalidSaleRecord (ValueError_raised "Quantity must be greater than zero.")]
             reached Hb).
    intros rest. apply sales_loop_raise; [apply He|reflexivity].
  - exists (KeyError_missing (JStr "Product")).
    assert (forall total, sale_entry cat total (JObj fields) =
            Raise (KeyError_missing (JStr "Product"))) as He.
    { intros total. unfold sale_entry, getitem. rewrite Hp. reflexivity. }
    split; [reflexivity|]. split; [intros H; congruence|].
    apply (compute_total_sales_skip cat before after (JObj fields) out
             [InvalidSaleRecord (KeyError_missing (JStr "Product"))] reached Hb).
    intros rest. apply sales_loop_raise; [apply He|reflexivity].
Qed.

(** C9: when the catalogue file holds well-formed JSON whose top-level
    value is not iterable (a number, [true], [false] or [null]),
    [load_product_catalogue] prints nothing and ends by raising the
    [TypeError] of the iteration: neither handler of the outer [try]
    catches it. *)
Theorem load_product_catalogue_not_iterable (filename : string) (data : json) :
  read_json filename = Return data ->
  iterable data = false ->
  load_product_catalogue filename = ([], Raise (TypeError_iter data)) /\
  class_of (TypeError_iter data) = TypeError /\
  caught [FileNotFoundError] (TypeError_iter data) = false /\
  caught [JSONDecodeError] (TypeError_iter data) = false.
Proof.
  intros Hread Hiter. repeat split.
  unfold load_product_catalogue. rewrite Hread.
  destruct data; try discriminate; reflexivity.
Qed.

(** C1 (at the failing input): with the catalogue [{"Widget": 2.5}] and
    the one record [{"Product": "Widget", "Quantity": inf}] (JSON
    [1e999]) the call does not return the total 0.0: [int] raises
    [OverflowError], which the [except] clause does not list. *)
Theorem infinite_quantity_escapes :
  compute_total_sales widgets
    (JArr [sale (JStr "Widget") (JFloat (S754_infinity false))])
  = ([], Raise OverflowError_infinity) /\
  caught [KeyError; ValueError; TypeError] OverflowError_infinity = false.
Proof. split; reflexivity. Qed.

(** C3 (at the failing input): with the valid catalogue
    [{"Widget": 2.5}], the empty sales list gives 0.0, and the list
    with the valid matching record [{"Product": "Widget", "Quantity":
    10**400}] appended gives no total: the multiplication raises
    [OverflowError], which the [except] clause does not list. *)
Theorem huge_quantity_escapes :
  compute_total_sales widgets (JArr []) = ([], Return fzero) /\
  compute_total_sales widgets
    (JArr ([] ++ [sale (JStr "Widget") (JInt (10 ^ 400))]))
  = ([], Raise OverflowError_int_too_large) /\
  caught [KeyError; ValueError; TypeError] OverflowError_int_too_large = false.
Proof. repeat split; vm_compute; reflexivity. Qed.

(** *** Facts about binary64 numbers *)

Lemma digits2_pos_size (p : positive) : digits2_pos p = Pos.size p.
Proof. induction p; simpl; congruence. Qed.

(** A positive number of [d] binary digits lies in [2^(d-1), 2^d). *)
Lemma digits2_pos_bounds (p : positive) :
  2 ^ (Zpos (digits2_pos p) - 1) <= Zpos p < 2 ^ Zpos (digits2_pos p).
Proof.
  assert (Zpos (digits2_pos p) = Z.log2 (Zpos p) + 1) as ->.
  { rewrite digits2_pos_size. destruct p; simpl; lia. }
  replace (Z.log2 (Zpos p) + 1 - 1) with (Z.log2 (Zpos p)) by lia.
  apply Z.log2_spec. lia.
Qed.

Lemma digits2_pos_le (p : positive) (d : Z) :
  0 <= d -> Zpos p < 2 ^ d -> Zpos (digits2_pos p) <= d.
Proof.
  intros Hd Hp. destruct (digits2_pos_bounds p) as [Hlo _].
  destruct (Z_le_gt_dec (Zpos (digits2_pos p)) d) as [|Hgt]; [assumption|].
  exfalso. assert (2 ^ d <= 2 ^ (Zpos (digits2_pos p) - 1)).
  { apply Z.pow_le_mono_r; lia. }
  lia.
Qed.


Lemma iter_xO_value (p k : positive) :
  Zpos (Pos.iter xO p k) = Zpos p * 2 ^ Zpos k.
Proof.
  induction k as [|k IH] using Pos.peano_ind.
  - simpl. lia.
  - rewrite Pos.iter_succ, Pos2Z.inj_xO, IH, Pos2Z.inj_succ, Z.pow_succ_r; lia.
Qed.

Lemma iter_xO_digits (p k : positive) :
  Zpos (digits2_pos (Pos.iter xO p k)) = Zpos (digits2_pos p) + Zpos k.
Proof.
  induction k as [|k IH] using Pos.peano_ind.
  - simpl. lia.
  - rewrite Pos.iter_succ. simpl digits2_pos. rewrite Pos2Z.inj_succ, IH. lia.
Qed.

(** The mantissa of a binary64 number has at most 53 digits. *)
Lemma binary64_mantissa (s : bool) (m : positive) (e : Z) :
  is_binary64 (S754_finite s m e) = true -> Zpos m < 2 ^ 53.
Proof.
  unfold is_binary64, valid_binary, bounded, canonical_mantissa, fexp, emin, prec, emax.
  intros H. apply andb_prop in H. destruct H as [H _]. apply Z.eqb_eq in H.
  destruct (digits2_pos_bounds m) as [_ Hhi].
  assert (Zpos (digits2_pos m) <= 53) by lia.
  assert (2 ^ Zpos (digits2_pos m) <= 2 ^ 53) by (apply Z.pow_le_mono_r; lia).
  lia.
Qed.

(** Rounding a number that is already in canonical form changes
    nothing. *)
Lemma binary_round_aux_canonical (s : bool) (m : positive) (e : Z) :
  canonical_mantissa prec emax m e = true ->
  e <= emax - prec ->
  binary_round_aux prec emax s (Zpos m) e loc_Exact = S754_finite s m e.
Proof.
  intros Hc He. unfold canonical_mantissa in Hc. apply Z.eqb_eq in Hc.
  unfold binary_round_aux, shr_fexp. simpl Zdigits2. rewrite Hc, Z.sub_diag.
  cbn [shr shr_record_of_loc shr_m loc_of_shr_record round_nearest_even].
  simpl Zdigits2. rewrite Hc, Z.sub_diag. cbn [shr shr_record_of_loc shr_m].
  apply Z.leb_le in He. rewrite He. reflexivity.
Qed.

(** An integer below [2^53] is a float, exactly. *)
Lemma float_of_Z_exact (n : Z) :
  0 < n < 2 ^ 53 ->
  exists m e,
    float_of_Z n = Return (S754_finite false m e) /\
    int_of_float (S754_finite false m e) = Return n.
Proof.
  intros [Hpos Hlt]. destruct n as [|p|p]; try lia.
  assert (Zpos (digits2_pos p) <= 53) as Hd by (apply digits2_pos_le; lia).
  unfold float_of_Z, binary_normalize, binary_round, shl_align.
  assert (fexp prec emax (Zpos (digits2_pos p) + 0) = Zpos (digits2_pos p) - 53) as ->.
  { unfold fexp, emin, prec, emax. lia. }
  destruct (Zpos (digits2_pos p) - 53 - 0) as [|k|k] eqn:Hk; try lia.
  - rewrite binary_round_aux_canonical.
    + exists p, 0. split; [reflexivity|]. simpl. reflexivity.
    + unfold canonical_mantissa, fexp, emin, prec, emax. apply Z.eqb_eq. lia.
    + unfold prec, emax. lia.
  - rewrite binary_round_aux_canonical.
    + exists (Pos.iter xO p k), (Zpos (digits2_pos p) - 53). split; [reflexivity|].
      unfold int_of_float, cond_Zopp. f_equal.
      rewrite Z.shiftl_div_pow2 by lia. rewrite iter_xO_value.
      replace (- (Zpos (digits2_pos p) - 53)) with (Zpos k) by lia.
      apply Z.div_mul. apply Z.pow_nonzero; lia.
    + unfold canonical_mantissa, fexp, emin, prec, emax. apply Z.eqb_eq.
      rewrite iter_xO_digits. lia.
    + unfold prec, emax. lia.
Qed.

(** C10: a sale record whose Quantity is a JSON number with a
    fractional part (a binary64 number [m * 2^e] with [e < 0] that is no
    integer) and whose Product is in the catalogue, reached after the
    records before it were processed, is not rejected as non-integer:
    [int] gives [n], the integer part of the magnitude, with the sign
    of the number (truncation toward zero); when that is positive
    [compute_total_sales] prints nothing for the record and adds
    [price * n] to the total; when it is zero or negative
    [compute_total_sales] reports the record as an invalid quantity and
    leaves the total as it was; a magnitude below 1 truncates to 0. *)
Theorem fractional_quantity_truncated (cat : catalogue) (before : list json)
    (out : list event) (reached : float)
    (fields : list (string * json)) (p : json) (k : key) (price : float)
    (s : bool) (m : positive) (e n : Z) :
  compute_total_sales cat (JArr before) = (out, Return reached) ->
  lookup_field "Product" fields = Some p ->
  hash_key p = Return k ->
  dict_get k cat = Some price ->
  lookup_field "Quantity" fields = Some (JFloat (S754_finite s m e)) ->
  is_binary64 (S754_finite s m e) = true ->
  e < 0 ->
  Zpos m mod 2 ^ (- e) <> 0 ->
  n = Zpos m / 2 ^ (- e) ->
  n * 2 ^ (- e) < Zpos m < (n + 1) * 2 ^ (- e) /\
  py_int (JFloat (S754_finite s m e)) = Return (if s then - n else n) /\
  (s = false -> 0 < n ->
   exists fq,
     float_of_Z n = Return fq /\ int_of_float fq = Return n /\
     compute_total_sales cat (JArr (before ++ [JObj fields])) =
       (out, Return (fadd reached (fmul price fq)))) /\
  (s = true \/ n = 0 ->
   compute_total_sales cat (JArr (before ++ [JObj fields])) =
     ((out ++ [InvalidSaleRecord
                 (ValueError_raised "Quantity must be greater than zero.")])%list,
      Return reached)) /\
  (Zpos m < 2 ^ (- e) -> n = 0).
Proof.
  intros Hb Hp Hk Hget Hq Hvalid He Hfrac Hn.
  assert (0 < 2 ^ (- e)) as Hpow by (apply Z.pow_pos_nonneg; lia).
  assert (0 <= n) as Hn0 by (subst n; apply Z.div_pos; lia).
  assert (n * 2 ^ (- e) < Zpos m < (n + 1) * 2 ^ (- e)) as Hbounds.
  { pose proof (Z.div_mod (Zpos m) (2 ^ (- e)) ltac:(lia)) as Hdm.
    pose proof (Z.mod_pos_bound (Zpos m) (2 ^ (- e)) Hpow) as Hmod.
    rewrite <- Hn in Hdm. nia. }
  assert (py_int (JFloat (S754_finite s m e)) = Return (if s then - n else n)) as Hint.
  { unfold py_int, int_of_float, cond_Zopp.
    rewrite Z.shiftl_div_pow2 by lia. rewrite <- Hn. reflexivity. }
  split; [exact Hbounds|]. split; [exact Hint|]. split; [|split].
  - intros -> Hpos.
    pose proof (binary64_mantissa _ _ _ Hvalid) as Hm.
    assert (n < 2 ^ 53) as Hlt by nia.
    destruct (float_of_Z_exact n (conj Hpos Hlt)) as (fm & fe & Hf & Hback).
    exists (S754_finite false fm fe). split; [exact Hf|]. split; [exact Hback|].
    assert (sale_entry cat reached (JObj fields) =
            Return ([], fadd reached (fmul price (S754_finite false fm fe)))) as Hentry.
    { unfold sale_entry, getitem. rewrite Hp, Hq. cbn [bind]. rewrite Hint. cbn [bind].
      destruct (n <=? 0) eqn:Hle; [apply Z.leb_le in Hle; lia|].
      unfold dict_contains, dict_getitem. rewrite Hk. cbn [bind]. rewrite Hget.
      cbn [bind negb]. rewrite Hf. reflexivity. }
    rewrite (compute_total_sales_after _ _ [JObj fields] _ _ Hb).
    rewrite (sales_loop_return _ _ _ _ _ _ Hentry).
    cbn [sales_loop fst snd app]. rewrite app_nil_r. reflexivity.
  - intros Hs.
    apply (compute_total_sales_skip cat before [] (JObj fields) out
             [InvalidSaleRecord (ValueError_raised "Quantity must be greater than zero.")]
             reached Hb).
    intros rest. apply sales_loop_raise; [|reflexivity].
    unfold sale_entry, getitem. rewrite Hp, Hq. cbn [bind]. rewrite Hint. cbn [bind].
    assert (((if s then - n else n) <=? 0) = true) as ->; [|reflexivity].
    apply Z.leb_le. destruct Hs as [-> | ->]; [lia|destruct s; lia].
  - intros Hsmall. subst n. apply Z.div_small. lia.
Qed.

(** *** The text of a formatted number *)

Lemma append_assoc (a b c : string) : (a ++ b) ++ c = a ++ (b ++ c).
Proof. induction a as [|x a IH]; simpl; congruence. Qed.

Lemma all_digits_append (a b : string) :
  all_digits (a ++ b) = all_digits a && all_digits b.
Proof.
  induction a as [|x a IH]; simpl; [reflexivity|].
  rewrite IH. apply andb_assoc.
Qed.

Lemma length_append (a b : string) :
  String.length (a ++ b) = (String.length a + String.length b)%nat.
Proof. induction a as [|x a IH]; simpl; congruence. Qed.

Lemma is_digit_digit_char (d : Z) : 0 <= d <= 9 -> is_digit (digit_char d) = true.
Proof.
  intros H.
  assert (d = 0 \/ d = 1 \/ d = 2 \/ d = 3 \/ d = 4 \/
          d = 5 \/ d = 6 \/ d = 7 \/ d = 8 \/ d = 9) as Hd by lia.
  repeat (destruct Hd as [-> | Hd]; [reflexivity|]). subst d. reflexivity.
Qed.

Lemma fraction_digits_shape (n : nat) (v : Z) :
  all_digits (fraction_digits n v) = true /\
  String.length (fraction_digits n v) = n.
Proof.
  revert v. induction n as [|n IH]; intros v; simpl; [auto|].
  destruct (IH (v / 10)) as [Hd Hl].
  rewrite all_digits_append, length_append, Hd, Hl.
  cbn [all_digits String.length andb]. rewrite is_digit_digit_char.
  - split; [reflexivity|lia].
  - pose proof (Z.mod_pos_bound v 10 ltac:(lia)). lia.
Qed.

Lemma uint_digits (d : Decimal.uint) :
  all_digits (NilEmpty.string_of_uint d) = true.
Proof. induction d; simpl; auto. Qed.

Lemma integer_digits_shape (v : Z) :
  all_digits (integer_digits v) = true /\ integer_digits v <> EmptyString.
Proof.
  unfold integer_digits, NilZero.string_of_uint.
  destruct (N.to_uint (Z.to_N v)) eqn:Hu;
    try (split; [reflexivity|discriminate]);
    (split; [rewrite <- Hu at 1; simpl; apply (uint_digits _)|simpl; discriminate]).
Qed.

Lemma digit_not_dot (c : ascii) : is_digit c = true -> Ascii.eqb c "."%char = false.
Proof.
  destruct c as [[] [] [] [] [] [] [] []]; try reflexivity; discriminate.
Qed.

Lemma digit_not_minus (c : ascii) : is_digit c = true -> Ascii.eqb c "-"%char = false.
Proof.
  destruct c as [[] [] [] [] [] [] [] []]; try reflexivity; discriminate.
Qed.

Lemma split_at_dot_digits (a b : string) :
  all_digits a = true -> split_at_dot (a ++ String "."%char b) = Some (a, b).
Proof.
  induction a as [|c a IH]; cbn [append split_at_dot all_digits]; intros H.
  - reflexivity.
  - apply andb_prop in H. destruct H as [Hc Ha].
    rewrite (digit_not_dot c Hc), (IH Ha). reflexivity.
Qed.

Lemma strip_minus_sign (s : bool) (a b : string) :
  all_digits a = true -> a <> EmptyString ->
  strip_minus (sign_text s ++ a ++ b) = a ++ b.
Proof.
  intros Ha Hne. destruct s; [reflexivity|].
  destruct a as [|c a]; [congruence|]. simpl in *.
  apply andb_prop in Ha. destruct Ha as [Hc _].
  rewrite (digit_not_minus c Hc). reflexivity.
Qed.

(** A finite float formatted with [:.nf], [n > 0], is an optional
    minus sign, digits, a point and exactly [n] digits. *)
Lemma format_f_shape (n : nat) (x : float) :
  is_finite x = true -> (0 < n)%nat ->
  has_fraction_digits n (format_f n x) = true.
Proof.
  intros Hfin Hn.
  assert (forall s v, has_fraction_digits n (sign_text s ++ fixed_point n v) = true) as H.
  { intros s v. unfold has_fraction_digits, fixed_point.
    destruct n as [|k]; [lia|].
    destruct (integer_digits_shape (v / 10 ^ Z.of_nat (S k))) as [Hd Hne].
    destruct (fraction_digits_shape (S k) (v mod 10 ^ Z.of_nat (S k))) as [Hfd Hfl].
    rewrite strip_minus_sign by assumption.
    change ("." ++ fraction_digits (S k) (v mod 10 ^ Z.of_nat (S k)))
      with (String "."%char (fraction_digits (S k) (v mod 10 ^ Z.of_nat (S k)))).
    rewrite split_at_dot_digits by assumption.
    rewrite Hd, Hfd, Hfl, Nat.eqb_refl.
    destruct (integer_digits (v / 10 ^ Z.of_nat (S k))); [congruence|reflexivity]. }
  destruct x; try discriminate; apply H.
Qed.

(** *** The total as a sum over the records *)





(** *** The catalogue as a dictionary *)

Lemma float_eqb_eq (x y : float) : float_eqb x y = true <-> x = y.
Proof.
  split.
  - destruct x, y; simpl; try discriminate; intros H.
    + apply eqb_prop in H. congruence.
    + apply eqb_prop in H. congruence.
    + reflexivity.
    + apply andb_prop in H. destruct H as [H He].
      apply andb_prop in H. destruct H as [Hs Hm].
      apply eqb_prop in Hs. apply Pos.eqb_eq in Hm. apply Z.eqb_eq in He.
      congruence.
  - intros <-. destruct x; simpl; rewrite ?eqb_reflx, ?Pos.eqb_refl, ?Z.eqb_refl;
      reflexivity.
Qed.

Lemma key_eqb_eq (a b : key) : key_eqb a b = true <-> a = b.
Proof.
  split.
  - destruct a, b; simpl; try discriminate; intros H.
    + reflexivity.
    + apply String.eqb_eq in H. congruence.
    + apply Z.eqb_eq in H. congruence.
    + apply float_eqb_eq in H. congruence.
  - intros <-. destruct a; simpl.
    + reflexivity.
    + apply String.eqb_refl.
    + apply Z.eqb_refl.
    + apply float_eqb_eq. reflexivity.
Qed.



Lemma dict_keys_set {V : Type} (k : key) (v : V) (d : dict V) (x : key) :
  In x (dict_keys (dict_set k v d)) -> x = k \/ In x (dict_keys d).
Proof.
  unfold dict_keys. induction d as [|[k0 v0] d IH]; simpl.
  - intros [H|[]]. auto.
  - destruct (key_eqb k k0); simpl; intros [H|H]; auto.
    destruct (IH H); auto.
Qed.




(** *** Rounding in binary64 *)




















(** *** Order and addition of non-negative floats *)







(** *** Conversion and multiplication *)



(** *** The total does not decrease *)





(** *** The sales loop, exactly *)

Lemma float_of_Z_raise (z : Z) (e : exn) :
  float_of_Z z = Raise e -> e = OverflowError_int_too_large.
Proof.
  unfold float_of_Z. destruct (binary_normalize prec emax z 0 false); congruence.
Qed.







(** *** The catalogue loop, exactly *)

Lemma product_entry_exact (cat : catalogue) (item : json) :
  match price_overflow_of item with
  | Some e => product_entry cat item = Raise e /\ class_of e = OverflowError
  | None =>
      match valid_entry item with
      | Some (k, price) => product_entry cat item = Return (dict_set k price cat)
      | None =>
          exists e, product_entry cat item = Raise e /\
                    caught [KeyError; ValueError; TypeError] e = true
      end
  end.
Proof.
  unfold price_overflow_of, valid_entry, product_entry.
  destruct item as [| | | | | |fields]; try (eexists; split; reflexivity).
  unfold getitem.
  destruct (lookup_field "title" fields) as [title|]; cbn [bind];
    [|eexists; split; reflexivity].
  destruct (lookup_field "price" fields) as [raw|]; cbn [bind];
    [|eexists; split; reflexivity].
  assert (forall price,
             match
               match hash_key title with
               | Return k => Some (k, price)
               | Raise _ => None
               end
             with
             | Some (k, price') =>
                 (x <- Return price;; dict_setitem cat title x) =
                 Return (dict_set k price' cat)
             | None =>
                 exists e,
                   (x <- Return price;; dict_setitem cat title x) = Raise e /\
                   caught [KeyError; ValueError; TypeError] e = true
             end) as Hok.
  { intros price. cbn [bind]. unfold dict_setitem.
    destruct (hash_key title) as [k|e] eqn:Hk; cbn [bind]; [reflexivity|].
    exists e. split; [reflexivity|].
    destruct title; simpl in Hk; try discriminate; try (inversion Hk; reflexivity).
    destruct (float_integral f); discriminate. }
  destruct raw as [|b|z|f|s|items|fields'].
  - eexists; split; reflexivity.
  - cbn [py_float]. destruct (float_of_Z (if b then 1 else 0)) as [price|e] eqn:Hf.
    + apply (Hok price).
    + destruct b; vm_compute in Hf; discriminate.
  - cbn [py_float]. destruct (float_of_Z z) as [price|e] eqn:Hf.
    + apply (Hok price).
    + cbn [bind]. rewrite (float_of_Z_raise _ _ Hf). split; reflexivity.
  - apply (Hok f).
  - cbn [py_float]. destruct (str_to_float s) as [price|] eqn:Hs.
    + apply (Hok price).
    + eexists; split; reflexivity.
  - eexists; split; reflexivity.
  - eexists; split; reflexivity.
Qed.

Lemma entry_events_valid (item : json) (k : key) (price : float) :
  price_overflow_of item = None -> valid_entry item = Some (k, price) ->
  entry_events item = [].
Proof.
  intros Ho Hv. unfold entry_events.
  pose proof (product_entry_exact [] item) as H. rewrite Ho, Hv in H.
  rewrite H. reflexivity.
Qed.

Lemma entry_events_invalid (cat : catalogue) (item : json) (e : exn) :
  product_entry cat item = Raise e ->
  entry_events item = [InvalidProductEntry e].
Proof.
  intros He. unfold entry_events.
  pose proof (product_entry_exact cat item) as H1.
  pose proof (product_entry_exact [] item) as H2.
  destruct (price_overflow_of item) as [e'|].
  - destruct H1 as [H1 _]. destruct H2 as [H2 _]. rewrite H2. congruence.
  - destruct (valid_entry item) as [[k price]|].
    + congruence.
    + destruct H1 as (e1 & H1 & _). destruct H2 as (e2 & H2 & _).
      rewrite H2. assert (e1 = e) as -> by congruence. clear He.
      revert H1 H2. unfold product_entry.
      destruct (getitem item "title") as [title|]; cbn [bind]; [|congruence].
      destruct (getitem item "price") as [raw|]; cbn [bind]; [|congruence].
      destruct (py_float raw) as [price|]; cbn [bind]; [|congruence].
      unfold dict_setitem. destruct (hash_key title); cbn [bind]; congruence.
Qed.

Lemma catalogue_loop_exact (data : list json) :
  forall cat,
    catalogue_loop cat data =
      (flat_map entry_events (fst (until_price_overflow data)),
       (fold_left assign_entry (fst (until_price_overflow data)) cat,
        snd (until_price_overflow data))).
Proof.
  induction data as [|item rest IH]; intros cat; [reflexivity|].
  cbn [catalogue_loop until_price_overflow].
  pose proof (product_entry_exact cat item) as H.
  destruct (price_overflow_of item) as [e|] eqn:Ho.
  - destruct H as [He Hclass]. rewrite He. unfold caught. rewrite Hclass. reflexivity.
  - destruct (valid_entry item) as [[k price]|] eqn:Hv.
    + assert (assign_entry cat item = dict_set k price cat) as Ha
        by (unfold assign_entry; rewrite Hv; reflexivity).
      rewrite H, IH. destruct (until_price_overflow rest) as [before r].
      cbn [fst snd flat_map fold_left]. rewrite Ha.
      rewrite (entry_events_valid item k price Ho Hv). reflexivity.
    + assert (assign_entry cat item = cat) as Ha
        by (unfold assign_entry; rewrite Hv; reflexivity).
      destruct H as (e & He & Hc). rewrite He, Hc, IH.
      destruct (until_price_overflow rest) as [before r].
      cbn [fst snd flat_map fold_left]. rewrite Ha.
      rewrite (entry_events_invalid cat item e He). reflexivity.
Qed.

Lemma until_price_overflow_none (data : list json) :
  snd (until_price_overflow data) = None ->
  fst (until_price_overflow data) = data.
Proof.
  induction data as [|item rest IH]; cbn [until_price_overflow]; [reflexivity|].
  destruct (price_overflow_of item); [discriminate|].
  destruct (until_price_overflow rest) as [before r]. cbn [fst snd] in *.
  intros H. rewrite (IH H). reflexivity.
Qed.

Lemma until_price_overflow_class (data : list json) (e : exn) :
  snd (until_price_overflow data) = Some e -> e = OverflowError_int_too_large.
Proof.
  induction data as [|item rest IH]; cbn [until_price_overflow]; [discriminate|].
  destruct (price_overflow_of item) as [e'|] eqn:Ho.
  - intros [= <-]. unfold price_overflow_of in Ho.
    destruct item as [| | | | | |fields]; try discriminate.
    destruct (lookup_field "title" fields); [|discriminate].
    destruct (lookup_field "price" fields) as [[| |z| | | |]|]; try discriminate.
    destruct (float_of_Z z); congruence.
  - destruct (until_price_overflow rest) as [before r]. exact IH.
Qed.



(** *** The loops over parts of the input *)

(** X6: the loop of [compute_total_sales] over a concatenation is the
    loop over the first part followed by the loop over the second part
    from the total the first part reached; when the first part raises,
    the second part is not processed. *)
Theorem sales_loop_app (cat : catalogue) (first second : list json) (total : float) :
  sales_loop cat total (first ++ second) =
    match sales_loop cat total first with
    | (out, Return reached) =>
        ((out ++ fst (sales_loop cat reached second))%list,
         snd (sales_loop cat reached second))
    | (out, Raise e) => (out, Raise e)
    end.
Proof.
  revert total. induction first as [|sale rest IH]; intros total.
  - cbn [app sales_loop]. destruct (sales_loop cat total second). reflexivity.
  - cbn [app sales_loop].
    destruct (sale_entry cat total sale) as [[out t]|e].
    + rewrite IH. destruct (sales_loop cat t rest) as [out1 [reached|e]].
      * rewrite app_assoc. reflexivity.
      * reflexivity.
    + destruct (caught [KeyError; ValueError; TypeError] e); [|reflexivity].
      rewrite IH. destruct (sales_loop cat total rest) as [out1 [reached|e']];
        reflexivity.
Qed.

(** *** Valid records *)

(** X7: a sale record whose Quantity converts to an integer greater
    than zero within the float range, and whose Product is a key of the
    catalogue, prints nothing and adds price * quantity to the running
    total; the loop goes on from the new total. *)
Theorem valid_record_added (cat : catalogue) (total : float)
    (fields : list (string * json)) (p raw : json) (q : Z) (k : key)
    (price fq : float) (rest : list json) :
  lookup_field "Product" fields = Some p ->
  lookup_field "Quantity" fields = Some raw ->
  py_int raw = Return q ->
  0 < q ->
  hash_key p = Return k ->
  dict_get k cat = Some price ->
  float_of_Z q = Return fq ->
  sale_entry cat total (JObj fields) = Return ([], fadd total (fmul price fq)) /\
  sales_loop cat total (JObj fields :: rest) =
    sales_loop cat (fadd total (fmul price fq)) rest.
Proof.
  intros Hp Hraw Hq Hpos Hk Hget Hf.
  assert (sale_entry cat total (JObj fields) =
          Return ([], fadd total (fmul price fq))) as He.
  { unfold sale_entry, getitem. rewrite Hp, Hraw. cbn [bind]. rewrite Hq. cbn [bind].
    destruct (q <=? 0) eqn:Hle; [apply Z.leb_le in Hle; lia|].
    unfold dict_contains, dict_getitem. rewrite Hk. cbn [bind]. rewrite Hget.
    cbn [bind negb]. rewrite Hf. reflexivity. }
  split; [exact He|].
  rewrite (sales_loop_return _ _ _ _ _ _ He).
  destruct (sales_loop cat (fadd total (fmul price fq)) rest). reflexivity.
Qed.


(** *** The catalogue as the sales see it *)

Lemma sale_entry_agree (cat1 cat2 : catalogue) (total : float) (sale : json) :
  (forall p k, getitem sale "Product" = Return p -> hash_key p = Return k ->
               dict_get k cat1 = dict_get k cat2) ->
  sale_entry cat1 total sale = sale_entry cat2 total sale.
Proof.
  intros Hagree. unfold sale_entry.
  destruct (getitem sale "Product") as [p|]; cbn [bind]; [|reflexivity].
  destruct (getitem sale "Quantity") as [raw|]; cbn [bind]; [|reflexivity].
  destruct (py_int raw) as [q|]; cbn [bind]; [|reflexivity].
  destruct (q <=? 0); [reflexivity|].
  unfold dict_contains, dict_getitem.
  destruct (hash_key p) as [k|] eqn:Hk; cbn [bind]; [|reflexivity].
  rewrite (Hagree p k eq_refl Hk). reflexivity.
Qed.

(** X9: [compute_total_sales] uses the catalogue only through the
    prices of the products the records name: two catalogues that agree
    on those products give the same diagnostics and the same outcome. *)
Theorem compute_total_sales_agree (cat1 cat2 : catalogue) (records : list json) :
  (forall sale p k,
      In sale records -> getitem sale "Product" = Return p ->
      hash_key p = Return k -> dict_get k cat1 = dict_get k cat2) ->
  compute_total_sales cat1 (JArr records) = compute_total_sales cat2 (JArr records).
Proof.
  intros Hagree. unfold compute_total_sales. cbn [py_iter]. generalize fzero.
  induction records as [|sale rest IH]; intros total; [reflexivity|].
  cbn [sales_loop].
  rewrite (sale_entry_agree cat1 cat2 total sale)
    by (intros p k; apply Hagree; left; reflexivity).
  destruct (sale_entry cat2 total sale) as [[out t]|e].
  - rewrite IH by (intros s p k Hin; apply Hagree; right; exact Hin). reflexivity.
  - destruct (caught [KeyError; ValueError; TypeError] e); [|reflexivity].
    rewrite IH by (intros s p k Hin; apply Hagree; right; exact Hin). reflexivity.
Qed.

(** *** Documents that are not arrays *)

Lemma sales_loop_strings (cat : catalogue) (records : list json) :
  (forall r, In r records -> exists s, r = JStr s) ->
  forall total,
    sales_loop cat total records =
      (map (fun r => InvalidSaleRecord (TypeError_subscript r)) records, Return total).
Proof.
  induction records as [|r rest IH]; intros Hstr total; [reflexivity|].
  destruct (Hstr r (or_introl eq_refl)) as [s ->].
  cbn [sales_loop map]. unfold sale_entry at 1. cbn [getitem bind].
  change (caught [KeyError; ValueError; TypeError] (TypeError_subscript (JStr s)))
    with true. cbn iota.
  rewrite IH by (intros r Hin; apply Hstr; right; exact Hin). reflexivity.
Qed.

Lemma catalogue_loop_strings (data : list json) :
  (forall r, In r data -> exists s, r = JStr s) ->
  forall cat,
    catalogue_loop cat data =
      (map (fun r => InvalidProductEntry (TypeError_subscript r)) data, (cat, None)).
Proof.
  induction data as [|r rest IH]; intros Hstr cat; [reflexivity|].
  destruct (Hstr r (or_introl eq_refl)) as [s ->].
  cbn [catalogue_loop map]. unfold product_entry at 1. cbn [getitem bind].
  change (caught [KeyError; ValueError; TypeError] (TypeError_subscript (JStr s)))
    with true. cbn iota.
  rewrite IH by (intros r Hin; apply Hstr; right; exact Hin). reflexivity.
Qed.

Lemma py_iter_strings (doc : json) (items : list json) :
  (forall l, doc <> JArr l) -> py_iter doc = Return items ->
  forall r, In r items -> exists s, r = JStr s.
Proof.
  intros Hna Hit r Hin. destruct doc as [| | | |s|l|fields]; try discriminate.
  - injection Hit as <-. apply in_map_iff in Hin. destruct Hin as (x & <- & _). eauto.
  - exfalso. exact (Hna l eq_refl).
  - injection Hit as <-. apply in_map_iff in Hin. destruct Hin as (x & <- & _). eauto.
Qed.

(** X10: a document that is a JSON object or a JSON string, where an
    array is expected, is iterated key by key (character by character):
    as the sales it gives the total 0.0 and one malformed-record
    diagnostic for each key; as the catalogue file it gives the empty
    mapping and one invalid-entry diagnostic for each key. *)
Theorem object_in_place_of_array (cat : catalogue) (filename : string)
    (doc : json) (items : list json) :
  (forall l, doc <> JArr l) ->
  py_iter doc = Return items ->
  read_json filename = Return doc ->
  compute_total_sales cat doc =
    (map (fun r => InvalidSaleRecord (TypeError_subscript r)) items, Return fzero) /\
  load_product_catalogue filename =
    (map (fun r => InvalidProductEntry (TypeError_subscript r)) items, Return []) /\
  (forall fields, doc = JObj fields -> items = map (fun kv => JStr (fst kv)) fields).
Proof.
  intros Hna Hit Hread.
  pose proof (py_iter_strings doc items Hna Hit) as Hstr.
  split; [|split].
  - unfold compute_total_sales. rewrite Hit. apply sales_loop_strings. exact Hstr.
  - unfold load_product_catalogue. rewrite Hread, Hit.
    rewrite (catalogue_loop_strings items Hstr []). reflexivity.
  - intros fields ->. cbn [py_iter] in Hit. congruence.
Qed.

(** *** The entry point *)

(** X11: with any number of arguments other than two, [main] prints the
    usage line and exits with status 1; it reads no file and writes no
    report. *)
Theorem main_usage (argv : list string) (start_time end_time : float) :
  List.length argv <> 3%nat ->
  main argv start_time end_time =
    {| stdout := [PrintText usage]; written := None;
       ended := Raise (SystemExit_code 1) |}.
Proof.
  intros Hlen. unfold main.
  destruct argv as [|a0 [|a1 [|a2 [|a3 argv]]]]; try reflexivity.
  exfalso. apply Hlen. reflexivity.
Qed.


(** X14: the loaders recover only from a missing file and from a JSON
    syntax error: any other exception of [open] or [json.load] (a
    permission error, bytes that are not UTF-8) leaves the loader with
    nothing printed, and ends [main] with nothing printed or written
    when it comes from the catalogue file. *)
Theorem loaders_propagate (program filename sales_file : string) (e : exn)
    (start_time end_time : float) :
  read_json filename = Raise e ->
  caught [FileNotFoundError] e = false ->
  caught [JSONDecodeError] e = false ->
  load_product_catalogue filename = ([], Raise e) /\
  load_sales filename = ([], Raise e) /\
  main [program; filename; sales_file] start_time end_time =
    {| stdout := []; written := None; ended := Raise e |}.
Proof.
  intros Hread Hfnf Hjson.
  assert (load_product_catalogue filename = ([], Raise e)) as Hcat.
  { unfold load_product_catalogue, catalogue_handlers. rewrite Hread, Hfnf, Hjson.
    reflexivity. }
  split; [exact Hcat|]. split.
  - unfold load_sales. rewrite Hread, Hfnf, Hjson. reflexivity.
  - unfold main. rewrite Hcat. reflexivity.
Qed.



(** *** The keys of the loaded catalogue *)

Lemma dict_keys_set_iff {V : Type} (k : key) (v : V) (d : dict V) (x : key) :
  In x (dict_keys (dict_set k v d)) <-> x = k \/ In x (dict_keys d).
Proof.
  split; [apply dict_keys_set|].
  unfold dict_keys. induction d as [|[k0 v0] d IH]; simpl.
  - intros [->|[]]. left. reflexivity.
  - destruct (key_eqb k k0) eqn:Hk; simpl.
    + apply key_eqb_eq in Hk. subst k0. intros [->|[H|H]]; auto.
    + intros [->|[H|H]]; auto.
Qed.

Lemma assign_entries_keys (data : list json) :
  forall cat k,
    In k (dict_keys (fold_left assign_entry data cat)) <->
    In k (dict_keys cat) \/
    exists item price, In item data /\ valid_entry item = Some (k, price).
Proof.
  induction data as [|item rest IH]; intros cat k; cbn [fold_left].
  - split; [auto|]. intros [H|(item & price & [] & _)]. exact H.
  - rewrite IH. unfold assign_entry at 1.
    destruct (valid_entry item) as [[k0 price0]|] eqn:Hv.
    + rewrite dict_keys_set_iff. split.
      * intros [[->|H]|(it & pr & Hin & Hit)].
        -- right. exists item, price0. split; [left; reflexivity|exact Hv].
        -- left. exact H.
        -- right. exists it, pr. split; [right; exact Hin|exact Hit].
      * intros [H|(it & pr & [<-|Hin] & Hit)].
        -- left. right. exact H.
        -- left. left. congruence.
        -- right. exists it, pr. auto.
    + split.
      * intros [H|(it & pr & Hin & Hit)]; [left; exact H|].
        right. exists it, pr. split; [right; exact Hin|exact Hit].
      * intros [H|(it & pr & [<-|Hin] & Hit)]; [left; exact H|congruence|].
        right. exists it, pr. auto.
Qed.

(** X17: when [load_product_catalogue] returns from a file that holds an
    array, the keys of the mapping are exactly the titles of the valid
    entries of the array: no entry that is skipped leaves a key, and no
    key comes from anywhere else. *)
Theorem catalogue_keys_from_entries (filename : string) (data : list json)
    (out : list event) (cat : catalogue) :
  read_json filename = Return (JArr data) ->
  load_product_catalogue filename = (out, Return cat) ->
  forall k,
    In k (dict_keys cat) <->
    exists item price, In item data /\ valid_entry item = Some (k, price).
Proof.
  intros Hread Hload k.
  unfold load_product_catalogue in Hload. rewrite Hread in Hload.
  cbn [py_iter] in Hload. rewrite catalogue_loop_exact in Hload.
  destruct (snd (until_price_overflow data)) as [e|] eqn:Hs.
  - rewrite (until_price_overflow_class _ _ Hs) in Hload. discriminate.
  - rewrite (until_price_overflow_none _ Hs) in Hload.
    injection Hload as _ <-. rewrite assign_entries_keys. split.
    + intros [[]|H]. exact H.
    + intros H. right. exact H.
Qed.

(** *** A total that is not negative, from the files to the report *)



(** *** The lines of the report *)

Lemma no_line_feed_append (a b : string) :
  no_line_feed (a ++ b) = no_line_feed a && no_line_feed b.
Proof.
  induction a as [|c a IH]; cbn [append no_line_feed]; [reflexivity|].
  rewrite IH. apply andb_assoc.
Qed.

Lemma digit_not_line_feed (c : ascii) :
  is_digit c = true -> Ascii.eqb c "010"%char = false.
Proof.
  destruct c as [[] [] [] [] [] [] [] []]; try reflexivity; discriminate.
Qed.

Lemma digits_no_line_feed (s : string) : all_digits s = true -> no_line_feed s = true.
Proof.
  induction s as [|c s IH]; cbn [all_digits no_line_feed]; [reflexivity|].
  intros H. apply andb_prop in H. destruct H as [Hc Hs].
  rewrite (digit_not_line_feed c Hc), (IH Hs). reflexivity.
Qed.

Lemma fixed_point_no_line_feed (n : nat) (v : Z) : no_line_feed (fixed_point n v) = true.
Proof.
  unfold fixed_point. destruct n as [|n].
  - apply digits_no_line_feed. apply integer_digits_shape.
  - rewrite !no_line_feed_append.
    rewrite (digits_no_line_feed _ (proj1 (integer_digits_shape _))).
    rewrite (digits_no_line_feed _ (proj1 (fraction_digits_shape _ _))).
    reflexivity.
Qed.

(** A formatted float holds no line feed, whatever the float. *)
Lemma format_f_no_line_feed (n : nat) (x : float) : no_line_feed (format_f n x) = true.
Proof.
  destruct x as [s|s| |s m e]; cbn [format_f]; try reflexivity;
    try (destruct s; reflexivity);
    rewrite no_line_feed_append, fixed_point_no_line_feed; destruct s; reflexivity.
Qed.

Lemma split_lines_line (a rest : string) :
  no_line_feed a = true ->
  split_lines (a ++ newline ++ rest) = a :: split_lines rest.
Proof.
  induction a as [|c a IH]; cbn [append no_line_feed split_lines]; intros H.
  - reflexivity.
  - apply andb_prop in H. destruct H as [Hc Ha].
    apply negb_true_iff in Hc. rewrite Hc.
    change (String "010"%char (EmptyString ++ rest)) with (newline ++ rest).
    rewrite (IH Ha). reflexivity.
Qed.

(** *** Reading a formatted number back *)

Lemma decimal_value_append (a b : string) :
  forall acc,
    decimal_value acc (a ++ b) =
      match decimal_value acc a with
      | Some v => decimal_value v b
      | None => None
      end.
Proof.
  induction a as [|c a IH]; intros acc; cbn [append decimal_value]; [reflexivity|].
  destruct (is_digit c); [apply IH|reflexivity].
Qed.

Lemma digit_char_value (d : Z) :
  0 <= d <= 9 -> Z.of_nat (nat_of_ascii (digit_char d)) - 48 = d.
Proof.
  intros H.
  assert (d = 0 \/ d = 1 \/ d = 2 \/ d = 3 \/ d = 4 \/
          d = 5 \/ d = 6 \/ d = 7 \/ d = 8 \/ d = 9) as Hd by lia.
  repeat (destruct Hd as [-> | Hd]; [reflexivity|]). subst d. reflexivity.
Qed.

Lemma decimal_value_fraction (n : nat) :
  forall v acc,
    0 <= v < 10 ^ Z.of_nat n ->
    decimal_value acc (fraction_digits n v) = Some (acc * 10 ^ Z.of_nat n + v).
Proof.
  induction n as [|n IH]; intros v acc Hv.
  - cbn [fraction_digits decimal_value]. f_equal. simpl in Hv. lia.
  - rewrite Nat2Z.inj_succ, Z.pow_succ_r in * by lia.
    cbn [fraction_digits]. rewrite decimal_value_append.
    assert (0 <= v / 10 < 10 ^ Z.of_nat n) as Hq.
    { split; [apply Z.div_pos; lia|apply Z.div_lt_upper_bound; lia]. }
    rewrite (IH (v / 10) acc Hq). cbn [decimal_value].
    pose proof (Z.mod_pos_bound v 10 ltac:(lia)) as Hr.
    rewrite is_digit_digit_char by lia. rewrite digit_char_value by lia.
    f_equal. pose proof (Z.div_mod v 10 ltac:(lia)). lia.
Qed.

Lemma decimal_value_uint (d : Decimal.uint) :
  forall acc, decimal_value acc (NilEmpty.string_of_uint d) = Some (uint_value acc d).
Proof.
  induction d; intros acc; cbn [NilEmpty.string_of_uint decimal_value uint_value];
    try reflexivity;
    match goal with
    | |- context [is_digit ?c] => change (is_digit c) with true
    end;
    cbn iota; rewrite <- IHd; f_equal; simpl; lia.
Qed.

Lemma uint_value_pos (d : Decimal.uint) :
  forall acc, uint_value (Zpos acc) d = Zpos (Pos.of_uint_acc d acc).
Proof.
  induction d; intros acc; cbn [uint_value Pos.of_uint_acc]; try reflexivity;
    rewrite <- IHd; f_equal; lia.
Qed.

Lemma uint_value_N (d : Decimal.uint) : uint_value 0 d = Z.of_N (N.of_uint d).
Proof.
  unfold N.of_uint.
  induction d; cbn [uint_value Pos.of_uint Z.of_N]; try reflexivity;
    try (rewrite <- uint_value_pos; f_equal; lia).
  rewrite <- IHd. f_equal.
Qed.

Lemma decimal_value_integer (v : Z) :
  0 <= v -> decimal_value 0 (integer_digits v) = Some v.
Proof.
  intros Hv. unfold integer_digits, NilZero.string_of_uint.
  pose proof (DecimalN.Unsigned.of_to (Z.to_N v)) as Hback.
  destruct (N.to_uint (Z.to_N v)) eqn:Hu;
    try (rewrite decimal_value_uint, uint_value_N, Hback; f_equal; lia).
  assert (Z.to_N v = 0%N) as Hzero by (rewrite <- Hback; reflexivity).
  replace v with 0 by lia. reflexivity.
Qed.

Lemma has_minus_sign (s : bool) (a b : string) :
  all_digits a = true -> a <> EmptyString ->
  has_minus (sign_text s ++ a ++ b) = s.
Proof.
  intros Ha Hne. destruct s; [reflexivity|].
  destruct a as [|c a]; [congruence|]. cbn in *.
  apply andb_prop in Ha. destruct Ha as [Hc _].
  exact (digit_not_minus c Hc).
Qed.

Lemma read_fixed_point (n : nat) (s : bool) (v : Z) :
  (0 < n)%nat -> 0 <= v ->
  read_fixed (sign_text s ++ fixed_point n v) = Some (s, v).
Proof.
  intros Hn Hv. unfold read_fixed, fixed_point.
  destruct n as [|k]; [lia|].
  assert (0 < 10 ^ Z.of_nat (S k)) as Hpow by (apply Z.pow_pos_nonneg; lia).
  destruct (integer_digits_shape (v / 10 ^ Z.of_nat (S k))) as [Hd Hne].
  rewrite has_minus_sign by assumption.
  rewrite strip_minus_sign by assumption.
  change ("." ++ fraction_digits (S k) (v mod 10 ^ Z.of_nat (S k)))
    with (String "."%char (fraction_digits (S k) (v mod 10 ^ Z.of_nat (S k)))).
  rewrite split_at_dot_digits by assumption.
  rewrite decimal_value_append.
  rewrite decimal_value_integer by (apply Z.div_pos; lia).
  rewrite decimal_value_fraction by (apply Z.mod_pos_bound; lia).
  cbn [option_map]. f_equal. f_equal.
  pose proof (Z.div_mod v (10 ^ Z.of_nat (S k)) ltac:(lia)). lia.
Qed.

Lemma round_half_even_nearest (num den : Z) :
  0 <= num -> 0 < den ->
  0 <= round_half_even num den /\ nearest (round_half_even num den) num den.
Proof.
  intros Hnum Hden. unfold round_half_even, nearest.
  pose proof (Z.div_mod num den ltac:(lia)) as Hdm.
  pose proof (Z.mod_pos_bound num den Hden) as Hr.
  assert (0 <= num / den) as Hq by (apply Z.div_pos; lia).
  destruct (2 * (num mod den) ?= den) eqn:Hc.
  - apply Z.compare_eq in Hc. destruct (Z.even (num / den)); split; lia.
  - rewrite Z.compare_lt_iff in Hc. split; lia.
  - rewrite Z.compare_gt_iff in Hc. split; lia.
Qed.

(** The digits of a formatted finite float spell an integer nearest to
    its magnitude times [10^n]; the minus sign is the sign of the
    float. *)
Lemma format_f_value (n : nat) (x : float) :
  is_finite x = true -> (0 < n)%nat ->
  exists v,
    read_fixed (format_f n x) = Some (sign_bit x, v) /\
    nearest v (numerator x * 10 ^ Z.of_nat n) (denominator x).
Proof.
  intros Hfin Hn. destruct x as [s|s| |s m e]; try discriminate.
  - exists 0. split; [apply read_fixed_point; [assumption|lia]|].
    unfold nearest. simpl. lia.
  - assert (0 < 10 ^ Z.of_nat n) as Hpow by (apply Z.pow_pos_nonneg; lia).
    exists (scaled n m e). cbn [format_f sign_bit numerator denominator].
    unfold scaled. destruct (0 <=? e) eqn:He.
    + apply Z.leb_le in He.
      assert (0 < 2 ^ e) by (apply Z.pow_pos_nonneg; lia).
      split; [apply read_fixed_point; [assumption|nia]|].
      unfold nearest. rewrite Z.mul_1_r, Z.sub_diag. simpl. lia.
    + apply Z.leb_gt in He.
      assert (0 < 2 ^ (- e)) as Hden by (apply Z.pow_pos_nonneg; lia).
      destruct (round_half_even_nearest (Zpos m * 10 ^ Z.of_nat n) (2 ^ (- e))
                  ltac:(nia) Hden) as [H0 Hnear].
      split; [apply read_fixed_point; assumption|exact Hnear].
Qed.

(** C8 (as amended): for every finite total and finite elapsed time,
    the text [save_results] writes to the file SalesResults.txt is
    exactly four lines: the title, the separator, "Total sales
    amount: $" followed by the total with exactly two fraction digits,
    and "Execution time: " followed by the elapsed time with exactly
    six fraction digits and " seconds"; the digits written are those of
    the total, to the nearest hundredth, and of the elapsed time, to the
    nearest millionth.  A run of [main] that reaches [save_results] has
    printed, after the diagnostics, the four lines of the file preceded
    by a blank line, and ends as the writing of the file ends. *)
Theorem report_layout (total elapsed_time : float) (argv : list string)
    (start_time end_time : float) :
  is_finite total = true ->
  is_finite elapsed_time = true ->
  save_results total elapsed_time =
    ("SalesResults.txt",
     "Sales Results" ++ newline ++
     "----------------------------" ++ newline ++
     "Total sales amount: $" ++ format_f 2 total ++ newline ++
     "Execution time: " ++ format_f 6 elapsed_time ++ " seconds" ++ newline) /\
  split_lines (snd (save_results total elapsed_time)) =
    ["Sales Results"; "----------------------------";
     "Total sales amount: $" ++ format_f 2 total;
     "Execution time: " ++ format_f 6 elapsed_time ++ " seconds"; ""] /\
  has_fraction_digits 2 (format_f 2 total) = true /\
  has_fraction_digits 6 (format_f 6 elapsed_time) = true /\
  (exists hundredths,
      read_fixed (format_f 2 total) = Some (sign_bit total, hundredths) /\
      nearest hundredths (numerator total * 10 ^ 2) (denominator total)) /\
  (exists millionths,
      read_fixed (format_f 6 elapsed_time) = Some (sign_bit elapsed_time, millionths) /\
      nearest millionths (numerator elapsed_time * 10 ^ 6) (denominator elapsed_time)) /\
  (forall report,
      written (main argv start_time end_time) = Some report ->
      exists diagnostics computed,
        report = save_results computed (fsub end_time start_time) /\
        stdout (main argv start_time end_time) =
          (diagnostics ++
           [PrintText (newline ++ "Sales Results");
            PrintText "----------------------------";
            PrintText ("Total sales amount: $" ++ format_f 2 computed);
            PrintText ("Execution time: " ++
                       format_f 6 (fsub end_time start_time) ++ " seconds")])%list /\
        printed_text (newline ++ "Sales Results") ++
        printed_text "----------------------------" ++
        printed_text ("Total sales amount: $" ++ format_f 2 computed) ++
        printed_text ("Execution time: " ++
                      format_f 6 (fsub end_time start_time) ++ " seconds") =
          newline ++ snd report /\
        ended (main argv start_time end_time) =
          write_file "SalesResults.txt" (snd report)).
Proof.
  intros Ht He.
  split; [|split; [|split; [|split; [|split; [|split]]]]].
  - unfold save_results, results_file, title_line, separator_line, total_line, time_line.
    f_equal. rewrite !append_assoc. reflexivity.
  - unfold save_results. cbn [snd].
    assert (forall a b, (a ++ newline) ++ b = a ++ newline ++ b) as Hassoc
      by (intros; apply append_assoc).
    rewrite !Hassoc.
    rewrite split_lines_line by reflexivity.
    rewrite split_lines_line by reflexivity.
    rewrite split_lines_line
      by (unfold total_line; rewrite no_line_feed_append, format_f_no_line_feed;
          reflexivity).
    assert (forall a, a ++ newline = a ++ newline ++ EmptyString) as Hend.
    { intros a. induction a as [|c a IH]; cbn [append]; [reflexivity|congruence]. }
    rewrite Hend.
    rewrite split_lines_line
      by (unfold time_line; rewrite !no_line_feed_append, format_f_no_line_feed;
          reflexivity).
    reflexivity.
  - apply format_f_shape; [assumption|lia].
  - apply format_f_shape; [assumption|lia].
  - apply (format_f_value 2 total Ht). lia.
  - apply (format_f_value 6 elapsed_time He). lia.
  - intros report. unfold main.
    destruct argv as [|a0 [|a1 [|a2 [|a3 argv]]]]; try discriminate.
    destruct (load_product_catalogue a1) as [out1 [cat|e1]]; [|discriminate].
    destruct (load_sales a2) as [out2 [sales|e2]]; [|discriminate].
    destruct (compute_total_sales cat sales) as [out3 [computed|e3]]; [|discriminate].
    cbn [stdout written ended]. intros [= <-].
    exists (out1 ++ out2 ++ out3)%list, computed.
    split; [reflexivity|]. split; [rewrite <- !app_assoc; reflexivity|].
    split; [|reflexivity].
    unfold save_results, printed_text, title_line, separator_line, total_line,
      time_line. cbn [snd].
    rewrite !append_assoc. reflexivity.
Qed.

(** X19: for every total and every elapsed time, the infinities and NaN
    included, the text [save_results] writes splits at its line feeds
    into exactly the four lines of the report, followed by nothing: no
    formatted number breaks the layout. *)
Theorem report_lines (total elapsed_time : float) :
  split_lines (snd (save_results total elapsed_time)) =
    [title_line; separator_line; total_line total; time_line elapsed_time;
     EmptyString] /\
  fst (save_results total elapsed_time) = "SalesResults.txt".
Proof.
  split; [|reflexivity].
  unfold save_results. cbn [snd].
  assert (forall a b, (a ++ newline) ++ b = a ++ newline ++ b) as Hassoc
    by (intros; apply append_assoc).
  rewrite !Hassoc.
  rewrite split_lines_line by reflexivity.
  rewrite split_lines_line by reflexivity.
  rewrite split_lines_line
    by (unfold total_line; rewrite no_line_feed_append, format_f_no_line_feed;
        reflexivity).
  assert (forall a, a ++ newline = a ++ newline ++ EmptyString) as Hend.
  { intros a. induction a as [|c a IH]; cbn [append]; [reflexivity|congruence]. }
  rewrite Hend.
  rewrite split_lines_line
    by (unfold time_line; rewrite !no_line_feed_append, format_f_no_line_feed;
        reflexivity).
  reflexivity.
Qed.

End ComputeSales.

(** ** The claims on concrete inputs *)

(** C5 (at the failing input): on the array with two valid entries
    titled "A" (prices 1 and 2) the loader maps "A" to 2.0, the price of
    the later one; with a third entry whose price is the integer 10**400
    the loader returns no mapping: [float] raises [OverflowError], which
    neither the inner [except] clause nor the outer handlers list. *)
Theorem huge_price_escapes :
  load_product_catalogue example_float example_files "pair.json"
  = ([], Return [(KStr "A", S754_finite false 4503599627370496 (-51))]) /\
  load_product_catalogue example_float example_files "huge.json"
  = ([], Raise OverflowError_int_too_large) /\
  caught [KeyError; ValueError; TypeError] OverflowError_int_too_large = false.
Proof. split; [|split]; vm_compute; reflexivity. Qed.



(** C6, counterexample: the record [{"Product": ["Gadget"], "Quantity":
    1}] has both fields, its quantity is 1, and its Product is no key of
    the catalogue; the membership test raises [TypeError] (a list is not
    hashable) and the record is reported as a malformed record, not as a
    product that was not found. *)
Lemma unhashable_product_is_malformed :
  getitem (sale (JArr [JStr "Gadget"]) (JInt 1)) "Product" = Return (JArr [JStr "Gadget"]) /\
  (q <- getitem (sale (JArr [JStr "Gadget"]) (JInt 1)) "Quantity" ;; py_int example_int q)
  = Return 1 /\
  compute_total_sales example_int utf8 widgets
    (JArr [sale (JArr [JStr "Gadget"]) (JInt 1)])
  = ([InvalidSaleRecord (TypeError_unhashable (JArr [JStr "Gadget"]))], Return fzero).
Proof. split; [|split]; vm_compute; reflexivity. Qed.

(** C8, counterexample: the price 1e308 sold 10 times gives the total
    [inf], and the report then reads "Total sales amount: $inf", with no
    fraction digits. *)
Lemma infinite_total_has_no_digits :
  compute_total_sales example_int utf8 dear_widgets
    (JArr [sale (JStr "Widget") (JInt 10)])
  = ([], Return (S754_infinity false)) /\
  snd (save_results (S754_infinity false) fzero)
  = "Sales Results" ++ newline ++
    "----------------------------" ++ newline ++
    "Total sales amount: $inf" ++ newline ++
    "Execution time: 0.000000 seconds" ++ newline /\
  has_fraction_digits 2 (format_f 2 (S754_infinity false)) = false.
Proof. split; [|split]; vm_compute; reflexivity. Qed.

(** *** Instances of the theorems *)






(** Three widgets at 2.5 make 7.5 (scenario A of the specification). *)
Lemma three_widgets :
  compute_total_sales example_int utf8 widgets (JArr [sale (JStr "Widget") (JInt 3)])
  = ([], Return seven_and_a_half).
Proof. vm_compute. reflexivity. Defined.

Lemma three_widgets_ascii :
  compute_total_sales example_int ascii_only widgets
    (JArr [sale (JStr "Widget") (JInt 3)])
  = ([], Return seven_and_a_half).
Proof. vm_compute. reflexivity. Defined.






(** C6, witness: after three widgets, the product "Gadget" against the
    catalogue of widgets; and the product "Caf\xe9" on a standard output
    that encodes ASCII only. *)
Lemma unknown_product_skipped_witness :
  compute_total_sales example_int utf8 widgets
    (JArr ([sale (JStr "Widget") (JInt 3)] ++ [sale (JStr "Gadget") (JInt 1)]))
  = ([ProductNotFound (JStr "Gadget")], Return seven_and_a_half) /\
  render example_message example_repr (ProductNotFound (JStr "Gadget"))
  = "Product not found in catalogue: Gadget" /\
  compute_total_sales example_int ascii_only widgets
    (JArr ([sale (JStr "Widget") (JInt 3)] ++ [sale (JStr cafe) (JInt 1)]))
  = ([InvalidSaleRecord (UnicodeEncodeError_print (JStr cafe))],
     Return seven_and_a_half).
Proof.
  assert (0 < 1) as Hpos by lia.
  destruct (unknown_product_skipped example_int utf8 example_message example_repr
              widgets [sale (JStr "Widget") (JInt 3)] [] [] seven_and_a_half
              [("Product", JStr "Gadget"); ("Quantity", JInt 1)]
              (JStr "Gadget") (JInt 1) 1 (KStr "Gadget")
              three_widgets eq_refl eq_refl eq_refl Hpos eq_refl eq_refl)
    as (Hseen & _ & Htext & _).
  destruct (unknown_product_skipped example_int ascii_only example_message example_repr
              widgets [sale (JStr "Widget") (JInt 3)] [] [] seven_and_a_half
              [("Product", JStr cafe); ("Quantity", JInt 1)]
              (JStr cafe) (JInt 1) 1 (KStr cafe)
              three_widgets_ascii eq_refl eq_refl eq_refl Hpos eq_refl eq_refl)
    as (_ & Hunseen & _).
  split; [exact (proj1 (Hseen eq_refl))|]. split; [exact Htext|exact (Hunseen eq_refl)].
Defined.

(** C7, witness: after three widgets, the quantity -1 (scenario D of
    the specification). *)
Lemma nonpositive_quantity_skipped_witness :
  compute_total_sales example_int utf8 widgets
    (JArr ([sale (JStr "Widget") (JInt 3)] ++ [sale (JStr "Widget") (JInt (-1))]))
  = ([InvalidSaleRecord (ValueError_raised "Quantity must be greater than zero.")],
     Return seven_and_a_half) /\
  render example_message example_repr
    (InvalidSaleRecord (ValueError_raised "Quantity must be greater than zero."))
  = "Invalid sale record skipped: Quantity must be greater than zero.".
Proof.
  assert (-1 <= 0) as Hle by lia.
  destruct (nonpositive_quantity_skipped example_int utf8 example_message example_repr
              widgets [sale (JStr "Widget") (JInt 3)] [] [] seven_and_a_half
              [("Product", JStr "Widget"); ("Quantity", JInt (-1))]
              (JInt (-1)) (-1) three_widgets eq_refl eq_refl Hle)
    as (e & He & Htext & Hcall & _).
  subst e. split; [exact Hcall|]. apply Htext. discriminate.
Defined.

(** C8, witness: the total 2.5 and the elapsed time 0.0. *)
Lemma report_layout_witness :
  save_results two_and_a_half fzero =
    ("SalesResults.txt",
     "Sales Results" ++ newline ++
     "----------------------------" ++ newline ++
     "Total sales amount: $" ++ format_f 2 two_and_a_half ++ newline ++
     "Execution time: " ++ format_f 6 fzero ++ " seconds" ++ newline) /\
  format_f 2 two_and_a_half = "2.50" /\
  format_f 6 fzero = "0.000000".
Proof.
  split.
  - exact (proj1 (report_layout example_int example_float utf8 example_files writable
                    two_and_a_half fzero
                    ["computeSales.py"; "catalogue.json"; "sales.json"]
                    fzero two_and_a_half eq_refl eq_refl)).
  - split; reflexivity.
Defined.

(** C9, witness: the catalogue file holds the document [5]. *)
Lemma load_product_catalogue_not_iterable_witness :
  load_product_catalogue example_float example_files "five.json"
  = ([], Raise (TypeError_iter (JInt 5))).
Proof.
  exact (proj1 (load_product_catalogue_not_iterable example_float example_files
                  "five.json" (JInt 5) eq_refl eq_refl)).
Defined.

(** C10, witness: after three widgets, the quantity 3.875 of a product
    priced 2.5 counts as 3. *)
Lemma fractional_quantity_truncated_witness :
  py_int example_int (JFloat three_and_seven_eighths) = Return 3 /\
  exists fq,
    float_of_Z 3 = Return fq /\ int_of_float fq = Return 3 /\
    compute_total_sales example_int utf8 widgets
      (JArr ([sale (JStr "Widget") (JInt 3)] ++
             [sale (JStr "Widget") (JFloat three_and_seven_eighths)]))
    = ([], Return (fadd seven_and_a_half (fmul two_and_a_half fq))).
Proof.
  assert (8725724278030336 mod 2 ^ (- -51) <> 0) as Hfrac
    by (vm_compute; discriminate).
  destruct (fractional_quantity_truncated example_int utf8 widgets
              [sale (JStr "Widget") (JInt 3)] [] seven_and_a_half
              [("Product", JStr "Widget"); ("Quantity", JFloat three_and_seven_eighths)]
              (JStr "Widget") (KStr "Widget") two_and_a_half
              false 8725724278030336 (-51) 3
              three_widgets eq_refl eq_refl eq_refl eq_refl eq_refl eq_refl Hfrac eq_refl)
    as (_ & Hint & Hpos & _).
  split; [exact Hint|exact (Hpos eq_refl eq_refl)].
Defined.


(** X7, witness: three widgets at 2.5 (scenario A of the
    specification). *)
Lemma valid_record_added_witness :
  sale_entry example_int utf8 widgets fzero (sale (JStr "Widget") (JInt 3))
  = Return ([], fadd fzero (fmul two_and_a_half
                              (S754_finite false 6755399441055744 (-51)))).
Proof.
  assert (0 < 3) as Hpos by lia.
  assert (float_of_Z 3 = Return (S754_finite false 6755399441055744 (-51))) as Hf
    by (vm_compute; reflexivity).
  exact (proj1 (valid_record_added example_int utf8 widgets fzero
                  [("Product", JStr "Widget"); ("Quantity", JInt 3)]
                  (JStr "Widget") (JInt 3) 3 (KStr "Widget") two_and_a_half
                  (S754_finite false 6755399441055744 (-51)) []
                  eq_refl eq_refl eq_refl Hpos eq_refl eq_refl Hf)).
Defined.


(** X9, witness: sales of widgets only, with and without gadgets in the
    catalogue. *)
Lemma compute_total_sales_agree_witness :
  compute_total_sales example_int utf8 widgets
    (JArr [sale (JStr "Widget") (JInt 3); sale (JStr "Widget") (JInt 1)])
  = compute_total_sales example_int utf8 widgets_and_gadgets
      (JArr [sale (JStr "Widget") (JInt 3); sale (JStr "Widget") (JInt 1)]).
Proof.
  apply (compute_total_sales_agree example_int utf8 widgets widgets_and_gadgets).
  intros r p k [<-|[<-|[]]] Hp Hk;
    injection Hp as <-; injection Hk as <-; reflexivity.
Defined.

(** X10, witness: a file that holds one record, not an array of
    records. *)
Lemma object_in_place_of_array_witness :
  compute_total_sales example_int utf8 widgets (sale (JStr "Widget") (JInt 3))
  = ([InvalidSaleRecord (TypeError_subscript (JStr "Product"));
      InvalidSaleRecord (TypeError_subscript (JStr "Quantity"))], Return fzero) /\
  load_product_catalogue example_float other_files "record.json"
  = ([InvalidProductEntry (TypeError_subscript (JStr "Product"));
      InvalidProductEntry (TypeError_subscript (JStr "Quantity"))], Return []).
Proof.
  assert (forall l, sale (JStr "Widget") (JInt 3) <> JArr l) as Hna
    by (intros l; discriminate).
  destruct (object_in_place_of_array example_int example_float utf8 other_files widgets
              "record.json" (sale (JStr "Widget") (JInt 3))
              [JStr "Product"; JStr "Quantity"] Hna eq_refl eq_refl)
    as (Hsales & Hcat & _).
  split; [exact Hsales|exact Hcat].
Defined.

(** X11, witness: one argument only. *)
Lemma main_usage_witness :
  main example_int example_float utf8 example_files writable
    ["computeSales.py"; "catalogue.json"] fzero two_and_a_half
  = {| stdout := [PrintText usage]; written := None;
       ended := Raise (SystemExit_code 1) |}.
Proof.
  apply (main_usage example_int example_float utf8 example_files writable).
  cbn [List.length]. discriminate.
Defined.


(** X14, witness: a catalogue file that cannot be opened. *)
Lemma loaders_propagate_witness :
  load_product_catalogue example_float other_files "locked.json"
  = ([], Raise (IOError PermissionError)) /\
  load_sales other_files "locked.json" = ([], Raise (IOError PermissionError)) /\
  main example_int example_float utf8 other_files writable
    ["computeSales.py"; "locked.json"; "sales.json"] fzero two_and_a_half
  = {| stdout := []; written := None; ended := Raise (IOError PermissionError) |}.
Proof.
  exact (loaders_propagate example_int example_float utf8 other_files writable
           "computeSales.py" "locked.json" "sales.json" (IOError PermissionError)
           fzero two_and_a_half eq_refl eq_refl eq_refl).
Defined.



(** X17, witness: two entries titled "A" leave the one key "A". *)
Lemma catalogue_keys_from_entries_witness :
  In (KStr "A") (dict_keys [(KStr "A", S754_finite false 4503599627370496 (-51))]) <->
  exists item price,
    In item [product (JStr "A") (JInt 1); product (JStr "A") (JInt 2)] /\
    valid_entry example_float item = Some (KStr "A", price).
Proof.
  assert (load_product_catalogue example_float example_files "pair.json"
          = ([], Return [(KStr "A", S754_finite false 4503599627370496 (-51))]))
    as Hload by (vm_compute; reflexivity).
  exact (catalogue_keys_from_entries example_float example_files "pair.json"
           [product (JStr "A") (JInt 1); product (JStr "A") (JInt 2)]
           [] [(KStr "A", S754_finite false 4503599627370496 (-51))]
           eq_refl Hload (KStr "A")).
Defined.

